(** * New-component detection for the author checklist, and the avatar

    The first part embeds
    [.github/actions/javascript/authorChecklist/newComponentCategory.js]:
    [filterFiles], [detectReactComponent], [nodeBase64ToUtf8],
    [detectReactComponentInFile] and [detectFunction].  The Babel parser,
    Node's [Buffer], the GitHub client and the constants of [libs/CONST]
    are not code of that file: they enter as fields of an environment
    record.  Exceptions, the console and the calls to the collaborators are
    threaded through a small state-and-error monad.

    The second part embeds the function component of [Avatar.tsx]: what it
    renders from its props, what its hooks return and its error state. *)

From Stdlib Require Import String List Bool Arith Lia.
Import ListNotations.
Open Scope string_scope.
Open Scope list_scope.
Set Warnings "-register-all".

(* ------------------------------------------------------------------ *)
(** ** Changed files and the file filter *)

(** A changed-file descriptor as the action receives it: the fields
    [filename] and [status] that lines 68 and 78 read. *)
Record ChangedFile : Type := mkChangedFile {
  filename : string;
  status : string
}.

(** [endsWith s suffix] is JavaScript's [s.endsWith(suffix)]: some tail of
    [s] is, character for character, [suffix]. *)
Fixpoint endsWith (s suffix : string) : bool :=
  if String.eqb s suffix then true
  else match s with
       | EmptyString => false
       | String _ rest => endsWith rest suffix
       end.

(** [filterFiles] (lines 68-73): the predicate handed to [_.filter]. *)
Definition filterFiles (file : ChangedFile) : bool :=
  if negb (String.eqb (status file) "added") then false
  else endsWith (filename file) ".js" || endsWith (filename file) ".jsx"
       || endsWith (filename file) ".ts" || endsWith (filename file) ".tsx".

(** [_.filter(changedFiles, filterFiles)] (line 76). *)
Definition filteredFiles (changedFiles : list ChangedFile) : list ChangedFile :=
  filter filterFiles changedFiles.

(** Order-preserving selection: [Subsequence xs ys] when [xs] is [ys] with
    some entries dropped. *)
Inductive Subsequence {A : Type} : list A -> list A -> Prop :=
| Subsequence_nil : Subsequence [] []
| Subsequence_keep x xs ys : Subsequence xs ys -> Subsequence (x :: xs) (x :: ys)
| Subsequence_drop y xs ys : Subsequence xs ys -> Subsequence xs (y :: ys).

(** The strict reading: a subsequence that dropped at least one entry. *)
Definition StrictSubsequence {A : Type} (xs ys : list A) : Prop :=
  Subsequence xs ys /\ xs <> ys.

(* ------------------------------------------------------------------ *)
(** ** Syntax trees *)

(** The nodes of the parser's tree that matter here, under their ESTree
    names.  As in JavaScript a node is a node: statements and expressions
    share one type and are told apart by their tag.  The body of a function
    is the statement list of its block ([node.body.body]); identifiers in
    binding positions are kept as strings. *)
Inductive Node : Type :=
| JSXElement (name : string) (children : list Node)
| JSXFragment (children : list Node)
| Identifier (name : string)
| NumericLiteral (value : nat)
| StringLiteral (value : string)
| NullLiteral
| ConditionalExpression (test consequent alternate : Node)
| CallExpression (callee : Node) (arguments : list Node)
| ArrowFunctionExpression (params : list string) (body : Node)
| FunctionExpression (id : option string) (params : list string)
                     (body : list Node)
| FunctionDeclaration (id : option string) (params : list string)
                      (body : list Node)
| ReturnStatement (argument : option Node)
| VariableDeclaration (name : string) (init : option Node)
| ExpressionStatement (expression : Node)
| IfStatement (test consequent : Node) (alternate : option Node)
| BlockStatement (body : list Node)
| ClassDeclaration (id : string) (methods : list Node)
| ClassMethod (key : string) (params : list string) (body : list Node)
| ExportNamedDeclaration (declaration : Node)
| ExportDefaultDeclaration (declaration : Node).

(** The child nodes of a node, in the order the traversal visits them. *)
Definition childNodes (n : Node) : list Node :=
  match n with
  | JSXElement _ children => children
  | JSXFragment children => children
  | Identifier _ | NumericLiteral _ | StringLiteral _ | NullLiteral => []
  | ConditionalExpression test consequent alternate =>
      [test; consequent; alternate]
  | CallExpression callee arguments => callee :: arguments
  | ArrowFunctionExpression _ body => [body]
  | FunctionExpression _ _ body => body
  | FunctionDeclaration _ _ body => body
  | ReturnStatement argument =>
      match argument with Some a => [a] | None => [] end
  | VariableDeclaration _ init =>
      match init with Some i => [i] | None => [] end
  | ExpressionStatement expression => [expression]
  | IfStatement test consequent alternate =>
      test :: consequent :: match alternate with Some a => [a] | None => [] end
  | BlockStatement body => body
  | ClassDeclaration _ methods => methods
  | ClassMethod _ _ body => body
  | ExportNamedDeclaration declaration => [declaration]
  | ExportDefaultDeclaration declaration => [declaration]
  end.

(** [Within d n]: the node [d] is [n] or lies at some depth below it. *)
Inductive Within (d : Node) : Node -> Prop :=
| Within_here : Within d d
| Within_child n c : In c (childNodes n) -> Within d c -> Within d n.

(** The nodes of a tree in the order an [enter] visitor meets them. *)
Fixpoint preorder (n : Node) : list Node :=
  n ::
  match n with
  | JSXElement _ children => flat_map preorder children
  | JSXFragment children => flat_map preorder children
  | Identifier _ | NumericLiteral _ | StringLiteral _ | NullLiteral => []
  | ConditionalExpression test consequent alternate =>
      preorder test ++ preorder consequent ++ preorder alternate
  | CallExpression callee arguments =>
      preorder callee ++ flat_map preorder arguments
  | ArrowFunctionExpression _ body => preorder body
  | FunctionExpression _ _ body => flat_map preorder body
  | FunctionDeclaration _ _ body => flat_map preorder body
  | ReturnStatement argument =>
      match argument with Some a => preorder a | None => [] end
  | VariableDeclaration _ init =>
      match init with Some i => preorder i | None => [] end
  | ExpressionStatement expression => preorder expression
  | IfStatement test consequent alternate =>
      preorder test ++ preorder consequent ++
      match alternate with Some a => preorder a | None => [] end
  | BlockStatement body => flat_map preorder body
  | ClassDeclaration _ methods => flat_map preorder methods
  | ClassMethod _ _ body => flat_map preorder body
  | ExportNamedDeclaration declaration => preorder declaration
  | ExportDefaultDeclaration declaration => preorder declaration
  end.

(* ------------------------------------------------------------------ *)
(** ** Values, errors and effects *)

(** What [code] can be at run time: [undefined], a string, or something
    that is not a string (the response object of a directory or of a
    submodule, which has no [content] key). *)
Inductive JsCode : Type :=
| Undefined
| Text (text : string)
| NotText (what : string).

(** [!code] is false exactly for a non-empty string and for an object. *)
Definition isTruthyCode (code : JsCode) : bool :=
  match code with
  | Undefined => false
  | Text "" => false
  | Text _ => true
  | NotText _ => true
  end.

(** How [console] prints the value. *)
Definition showCode (code : JsCode) : string :=
  match code with
  | Undefined => "undefined"
  | Text text => text
  | NotText what => what
  end.

(** A thrown JavaScript error: its [name] and its [message]. *)
Record Error : Type := mkError {
  errorName : string;
  errorMessage : string
}.

Definition TypeError (message : string) : Error := mkError "TypeError" message.

(** [`${error}`], that is [Error.prototype.toString]. *)
Definition errorToString (e : Error) : string :=
  if String.eqb (errorName e) "" then errorMessage e
  else if String.eqb (errorMessage e) "" then errorName e
  else (errorName e ++ ": " ++ errorMessage e)%string.

(** The options of the parse call. *)
Inductive SourceType : Type :=
| sourceScript
| sourceModule.

Inductive Plugin : Type :=
| jsx
| typescript
| flow.

Record ParserOptions : Type := mkParserOptions {
  sourceType : SourceType;
  plugins : list Plugin
}.

(** What the parser answers: the statements of the program, or the error
    it throws. *)
Inductive ParseResult : Type :=
| Parsed (ast : list Node)
| ParseFailed (error : Error).

(** The key of a [repos.getContent] request (lines 53-58). *)
Record RequestParams : Type := mkRequestParams {
  owner : string;
  repo : string;
  path : string;
  ref : string
}.

(** The [data] of a resolved request: an object with a [content] key
    (a file; the value may be absent), a bare string (raw media type), or
    an object without that key (a directory listing, a submodule). *)
Inductive Data : Type :=
| FileData (content : option string)
| TextData (text : string)
| OtherData (what : string).

(** The request resolves with [data] or rejects with an error. *)
Inductive Response : Type :=
| Resolved (data : Data)
| Rejected (error : Error).

(** One console call with its printed arguments. *)
Inductive LogEntry : Type :=
| ConsoleError (args : list string)
| ConsoleLog (args : list string).

(** What a run can observe: the requests sent, the inputs handed to the
    parser, and the console, each in order of occurrence. *)
Record World : Type := mkWorld {
  fetchCalls : list RequestParams;
  parseCalls : list JsCode;
  console : list LogEntry
}.

Definition emptyWorld : World := mkWorld [] [] [].

(** A computation that touches nothing but the console. *)
Definition addConsole (w : World) (logs : list LogEntry) : World :=
  mkWorld (fetchCalls w) (parseCalls w) (console w ++ logs).

(** The collaborators and the configuration of one invocation:
    [@babel/parser]'s [parse], [Buffer.from(_, 'base64').toString('utf-8')],
    [GithubUtils.octokit.repos.getContent], the constants of [CONST], and
    [github.context.payload.pull_request.head.ref], absent when the payload
    has no pull request. *)
Record Env : Type := mkEnv {
  parse : ParserOptions -> JsCode -> ParseResult;
  bufferBase64ToUtf8 : string -> string;
  getContent : RequestParams -> Response;
  GITHUB_OWNER : string;
  APP_REPO : string;
  pullRequestHeadRef : option string
}.

(** A computation either returns or throws, and leaves a world behind. *)
Inductive Outcome (A : Type) : Type :=
| Return (a : A)
| Throw (e : Error).

Arguments Return {A} a.
Arguments Throw {A} e.

Definition M (A : Type) : Type := World -> Outcome A * World.

Definition ret {A : Type} (a : A) : M A := fun w => (Return a, w).

Definition throw {A : Type} (e : Error) : M A := fun w => (Throw e, w).

Definition bind {A B : Type} (m : M A) (k : A -> M B) : M B :=
  fun w =>
    match m w with
    | (Return a, w') => k a w'
    | (Throw e, w') => (Throw e, w')
    end.

(** [tryCatch m handler] is [try { m } catch (error) { handler(error) }]:
    the effects of [m] up to the throw stay. *)
Definition tryCatch {A : Type} (m : M A) (handler : Error -> M A) : M A :=
  fun w =>
    match m w with
    | (Return a, w') => (Return a, w')
    | (Throw e, w') => handler e w'
    end.

Notation "x <- m ;; k" := (bind m (fun x => k))
  (at level 61, m at next level, right associativity).

Definition logFetch (params : RequestParams) : M unit :=
  fun w => (Return tt,
            mkWorld (fetchCalls w ++ [params]) (parseCalls w) (console w)).

Definition logParse (code : JsCode) : M unit :=
  fun w => (Return tt,
            mkWorld (fetchCalls w) (parseCalls w ++ [code]) (console w)).

Definition consoleWrite (entry : LogEntry) : M unit :=
  fun w => (Return tt,
            mkWorld (fetchCalls w) (parseCalls w) (console w ++ [entry])).

(** The verdict of a run: what it returned or threw. *)
Definition verdict {A : Type} (r : Outcome A * World) : Outcome A := fst r.

(* ------------------------------------------------------------------ *)
(** ** [detectReactComponent] (lines 21-46) *)

(** The options of lines 26-29: module mode, the [jsx] plugin and no
    other. *)
Definition babelOptions : ParserOptions := mkParserOptions sourceModule [jsx].

(** [parse(code, {...})]: the tree, or the parser's error thrown. *)
Definition babelParse (env : Env) (code : JsCode) : M (list Node) :=
  _ <- logParse code ;;
  match parse env babelOptions code with
  | Parsed ast => ret ast
  | ParseFailed error => throw error
  end.

(** The callback of line 38:
    [node.type === 'ReturnStatement' && node.argument.type === 'JSXElement'].
    On a return without argument [node.argument] is [null] and reading its
    [type] throws. *)
Definition returnsJSXElement (node : Node) : M bool :=
  match node with
  | ReturnStatement None =>
      throw (TypeError "Cannot read properties of null (reading 'type')")
  | ReturnStatement (Some (JSXElement _ _)) => ret true
  | _ => ret false
  end.

(** [_.some(list, predicate)]: the predicate runs from the left until it
    answers [true]. *)
Fixpoint some {A : Type} (predicate : A -> M bool) (l : list A) : M bool :=
  match l with
  | [] => ret false
  | x :: rest =>
      found <- predicate x ;;
      if found then ret true else some predicate rest
  end.

(** The [FunctionDeclaration] visitor of lines 34-42, with the flag
    [isReactComponent] it closes over passed through.  A node of another
    type has no visitor. *)
Definition visitFunctionDeclaration (file : string) (node : Node)
  (isReactComponent : bool) : M bool :=
  match node with
  | FunctionDeclaration id _ body =>
      if isReactComponent then ret isReactComponent
      else
        match id with
        | None => ret isReactComponent
        | Some _ =>
            found <- some returnsJSXElement body ;;
            if found
            then _ <- consoleWrite
                        (ConsoleLog ["Detected react component in file"; file]) ;;
                 ret true
            else ret isReactComponent
        end
  | _ => ret isReactComponent
  end.

Section Traverse.

Context {S : Type}.
Variable visitor : Node -> S -> M S.

(** A list of nodes, one after the other. *)
Definition traverseList (go : Node -> S -> M S) : list Node -> S -> M S :=
  fix walk (l : list Node) (s : S) : M S :=
    match l with
    | [] => ret s
    | n :: rest => s' <- go n s ;; walk rest s'
    end.

Definition traverseOption (go : Node -> S -> M S) (o : option Node) (s : S)
  : M S :=
  match o with
  | Some n => go n s
  | None => ret s
  end.

(** [traverse]: depth first, the visitor on entering a node, then the
    children from left to right; a throw ends the traversal. *)
Fixpoint traverseNode (n : Node) (s : S) {struct n} : M S :=
  s0 <- visitor n s ;;
  match n with
  | JSXElement _ children => traverseList traverseNode children s0
  | JSXFragment children => traverseList traverseNode children s0
  | Identifier _ | NumericLiteral _ | StringLiteral _ | NullLiteral => ret s0
  | ConditionalExpression test consequent alternate =>
      s1 <- traverseNode test s0 ;;
      s2 <- traverseNode consequent s1 ;;
      traverseNode alternate s2
  | CallExpression callee arguments =>
      s1 <- traverseNode callee s0 ;;
      traverseList traverseNode arguments s1
  | ArrowFunctionExpression _ body => traverseNode body s0
  | FunctionExpression _ _ body => traverseList traverseNode body s0
  | FunctionDeclaration _ _ body => traverseList traverseNode body s0
  | ReturnStatement argument => traverseOption traverseNode argument s0
  | VariableDeclaration _ init => traverseOption traverseNode init s0
  | ExpressionStatement expression => traverseNode expression s0
  | IfStatement test consequent alternate =>
      s1 <- traverseNode test s0 ;;
      s2 <- traverseNode consequent s1 ;;
      traverseOption traverseNode alternate s2
  | BlockStatement body => traverseList traverseNode body s0
  | ClassDeclaration _ methods => traverseList traverseNode methods s0
  | ClassMethod _ _ body => traverseList traverseNode body s0
  | ExportNamedDeclaration declaration => traverseNode declaration s0
  | ExportDefaultDeclaration declaration => traverseNode declaration s0
  end.

(** [traverse(ast, visitor)] on a program. *)
Definition traverse (ast : list Node) (s : S) : M S :=
  traverseList traverseNode ast s.

(** The visitor run over a list of nodes, in order. *)
Fixpoint visitEach (l : list Node) (s : S) : M S :=
  match l with
  | [] => ret s
  | n :: rest => s' <- visitor n s ;; visitEach rest s'
  end.

End Traverse.

(** [detectReactComponent(code, filename)] (lines 21-46); [None] is the
    [undefined] of the bare [return] of line 24. *)
Definition detectReactComponent (env : Env) (code : JsCode) (file : string)
  : M (option bool) :=
  if negb (isTruthyCode code)
  then _ <- consoleWrite
              (ConsoleError ["failed to get code from a filename";
                             showCode code; file]) ;;
       ret None
  else
    ast <- babelParse env code ;;
    isReactComponent <- traverse (visitFunctionDeclaration file) ast false ;;
    ret (Some isReactComponent).

(* ------------------------------------------------------------------ *)
(** ** [detectReactComponentInFile] and [detectFunction] (lines 48-84) *)

(** [nodeBase64ToUtf8] (lines 48-50). *)
Definition nodeBase64ToUtf8 (env : Env) (data : string) : string :=
  bufferBase64ToUtf8 env data.

(** [await GithubUtils.octokit.repos.getContent(params)] (line 60). *)
Definition awaitGetContent (env : Env) (params : RequestParams) : M Data :=
  _ <- logFetch params ;;
  match getContent env params with
  | Resolved data => ret data
  | Rejected error => throw error
  end.

(** [data.content || '']: an absent and an empty content give ['']. *)
Definition orEmpty (content : option string) : string :=
  match content with
  | Some c => if String.eqb c "" then "" else c
  | None => ""
  end.

(** Line 61:
    ['content' in data ? nodeBase64ToUtf8(data.content || '') : data].
    The [in] operator throws on a string. *)
Definition contentOf (env : Env) (data : Data) : M JsCode :=
  match data with
  | FileData content => ret (Text (nodeBase64ToUtf8 env (orEmpty content)))
  | TextData text =>
      throw (TypeError
               ("Cannot use 'in' operator to search for 'content' in " ++ text))
  | OtherData what => ret (NotText what)
  end.

(** The line the handler of line 64 prints: the error as a string, and the
    parameters object, which a template string turns into
    [[object Object]]. *)
Definition unknownErrorMessage (error : Error) : string :=
  ("An unknown error occurred with the GitHub API: " ++ errorToString error
   ++ ", while fetching [object Object]")%string.

(** [detectReactComponentInFile(filename)] (lines 52-66).  The parameters
    are built before the [try]: without a pull request in the payload
    reading [head] throws and nothing catches it.  The handler logs and
    falls off the end of the function: the result is [undefined]. *)
Definition detectReactComponentInFile (env : Env) (file : string)
  : M (option bool) :=
  match pullRequestHeadRef env with
  | None =>
      throw (TypeError "Cannot read properties of undefined (reading 'head')")
  | Some branch =>
      let params := mkRequestParams (GITHUB_OWNER env) (APP_REPO env)
                                    file branch in
      tryCatch
        (data <- awaitGetContent env params ;;
         content <- contentOf env data ;;
         detectReactComponent env content file)
        (fun error =>
           _ <- consoleWrite (ConsoleError [unknownErrorMessage error]) ;;
           ret None)
  end.

(** [if (result)]: of the three results only [true] is truthy. *)
Definition isTruthyResult (result : option bool) : bool :=
  match result with
  | Some true => true
  | _ => false
  end.

(** The loop of lines 77-83. *)
Fixpoint detectLoop (env : Env) (files : list ChangedFile) : M bool :=
  match files with
  | [] => ret false
  | file :: rest =>
      result <- detectReactComponentInFile env (filename file) ;;
      if isTruthyResult result then ret true else detectLoop env rest
  end.

(** [detectFunction(changedFiles)] (lines 75-84). *)
Definition detectFunction (env : Env) (changedFiles : list ChangedFile)
  : M bool :=
  detectLoop env (filteredFiles changedFiles).

(* ------------------------------------------------------------------ *)
(** ** What one file contributes, stated without the monad *)

Definition requestFor (env : Env) (branch name : string) : RequestParams :=
  mkRequestParams (GITHUB_OWNER env) (APP_REPO env) name branch.

(** A return statement whose argument is a JSX element. *)
Definition isJSXReturn (node : Node) : bool :=
  match node with
  | ReturnStatement (Some (JSXElement _ _)) => true
  | _ => false
  end.

(** A named function declaration with such a return in its own statement
    list. *)
Definition isComponentDeclaration (node : Node) : bool :=
  match node with
  | FunctionDeclaration (Some _) _ body => existsb isJSXReturn body
  | _ => false
  end.

(** No named function declaration of the program, at any depth, has a
    return without argument in its own statement list. *)
Definition NoBareReturn (ast : list Node) : Prop :=
  forall top name params body,
    In top ast ->
    Within (FunctionDeclaration (Some name) params body) top ->
    ~ In (ReturnStatement None) body.

(** A node whose own statement list, if it is a named declaration, has no
    return without argument. *)
Definition bareFree (node : Node) : Prop :=
  forall name params body,
    node = FunctionDeclaration (Some name) params body ->
    ~ In (ReturnStatement None) body.

(** The result of the per-file step, which does not depend on the world it
    starts from. *)
Definition fileResult (env : Env) (name : string) : Outcome (option bool) :=
  fst (detectReactComponentInFile env name emptyWorld).

Definition fileMatches (env : Env) (name : string) : bool :=
  match fileResult env name with
  | Return result => isTruthyResult result
  | Throw _ => false
  end.

(** What the per-file step hands to the parser: nothing when the request
    rejects, when [in] throws or when the decoded content is empty. *)
Definition fileParses (env : Env) (branch name : string) : list JsCode :=
  match getContent env (requestFor env branch name) with
  | Resolved (FileData content) =>
      if isTruthyCode (Text (nodeBase64ToUtf8 env (orEmpty content)))
      then [Text (nodeBase64ToUtf8 env (orEmpty content))]
      else []
  | Resolved (OtherData what) => [NotText what]
  | Resolved (TextData _) => []
  | Rejected _ => []
  end.

(** The files a scan visits: the prefix that ends with the first match. *)
Fixpoint visited (env : Env) (files : list ChangedFile) : list ChangedFile :=
  match files with
  | [] => []
  | file :: rest =>
      if fileMatches env (filename file) then [file]
      else file :: visited env rest
  end.

(* ------------------------------------------------------------------ *)
(** ** Fixtures: a scripted parser, decoder and remote host *)

Definition sourceA : string := "function Foo() { return <div/>; }".
Definition sourceB : string := "function foo() { return 1; }".
Definition sourceC : string := "const Foo = () => <div/>;".
Definition sourceD : string := "function Foo() {".
Definition sourceN : string :=
  "function outer() { function Inner() { return <div/>; } return Inner; }".
Definition sourceR : string := "function Foo() { return; }".
Definition sourceT : string := "function Foo(props: Props) { return <div/>; }".
Definition sourceAR : string :=
  "function Foo() { return <div/>; } function Bar() { return; }".

Definition base64A : string := "ZnVuY3Rpb24gRm9vKCkgeyByZXR1cm4gPGRpdi8+OyB9".
Definition base64B : string := "ZnVuY3Rpb24gZm9vKCkgeyByZXR1cm4gMTsgfQ==".
Definition base64C : string := "Y29uc3QgRm9vID0gKCkgPT4gPGRpdi8+Ow==".
Definition base64D : string := "ZnVuY3Rpb24gRm9vKCkgew==".
Definition base64N : string :=
  "ZnVuY3Rpb24gb3V0ZXIoKSB7IGZ1bmN0aW9uIElubmVyKCkgeyByZXR1cm4gPGRpdi8+OyB9IHJldHVybiBJbm5lcjsgfQ==".
Definition base64R : string := "ZnVuY3Rpb24gRm9vKCkgeyByZXR1cm47IH0=".
Definition base64T : string :=
  "ZnVuY3Rpb24gRm9vKHByb3BzOiBQcm9wcykgeyByZXR1cm4gPGRpdi8+OyB9".

Definition astA : list Node :=
  [FunctionDeclaration (Some "Foo") []
     [ReturnStatement (Some (JSXElement "div" []))]].

Definition astB : list Node :=
  [FunctionDeclaration (Some "foo") []
     [ReturnStatement (Some (NumericLiteral 1))]].

Definition astC : list Node :=
  [VariableDeclaration "Foo"
     (Some (ArrowFunctionExpression [] (JSXElement "div" [])))].

Definition astN : list Node :=
  [FunctionDeclaration (Some "outer") []
     [FunctionDeclaration (Some "Inner") []
        [ReturnStatement (Some (JSXElement "div" []))];
      ReturnStatement (Some (Identifier "Inner"))]].

Definition astR : list Node :=
  [FunctionDeclaration (Some "Foo") [] [ReturnStatement None]].

Definition astT : list Node :=
  [FunctionDeclaration (Some "Foo") ["props"]
     [ReturnStatement (Some (JSXElement "div" []))]].

Definition hasPlugin (p : Plugin) (options : ParserOptions) : bool :=
  existsb (fun q => match p, q with
                    | jsx, jsx | typescript, typescript | flow, flow => true
                    | _, _ => false
                    end) (plugins options).

(** A parser double: it knows the sources above, reads JSX only with the
    [jsx] plugin and a type annotation only with the [typescript] plugin,
    and rejects everything else. *)
Definition fixtureParse (options : ParserOptions) (code : JsCode)
  : ParseResult :=
  match code with
  | Text text =>
      if String.eqb text sourceB then Parsed astB
      else if negb (hasPlugin jsx options)
      then ParseFailed (mkError "SyntaxError" "Unexpected token")
      else if String.eqb text sourceA then Parsed astA
      else if String.eqb text sourceC then Parsed astC
      else if String.eqb text sourceN then Parsed astN
      else if String.eqb text sourceR then Parsed astR
      else if String.eqb text sourceAR then Parsed (astA ++ astR)
      else if String.eqb text sourceT
      then if hasPlugin typescript options then Parsed astT
           else ParseFailed (mkError "SyntaxError"
                               "Unexpected token, expected a comma (1:18)")
      else ParseFailed (mkError "SyntaxError" "Unexpected token (1:16)")
  | _ => ParseFailed (TypeError "this.input.charCodeAt is not a function")
  end.

Definition fixtureDecode (data : string) : string :=
  if String.eqb data base64A then sourceA
  else if String.eqb data base64B then sourceB
  else if String.eqb data base64C then sourceC
  else if String.eqb data base64D then sourceD
  else if String.eqb data base64N then sourceN
  else if String.eqb data base64R then sourceR
  else if String.eqb data base64T then sourceT
  else "".

(** A remote double: a handful of paths on the branch [feature]. *)
Definition fixtureRemote (params : RequestParams) : Response :=
  if negb (String.eqb (ref params) "feature")
  then Rejected (mkError "HttpError" "No commit found for the ref")
  else if String.eqb (path params) "src/components/Foo.js"
  then Resolved (FileData (Some base64A))
  else if String.eqb (path params) "src/libs/foo.ts"
  then Resolved (FileData (Some base64B))
  else if String.eqb (path params) "src/components/Arrow.tsx"
  then Resolved (FileData (Some base64C))
  else if String.eqb (path params) "src/Broken.jsx"
  then Resolved (FileData (Some base64D))
  else if String.eqb (path params) "src/Nested.js"
  then Resolved (FileData (Some base64N))
  else if String.eqb (path params) "src/Bare.js"
  then Resolved (FileData (Some base64R))
  else if String.eqb (path params) "src/components/Typed.tsx"
  then Resolved (FileData (Some base64T))
  else if String.eqb (path params) "src/Empty.js"
  then Resolved (FileData (Some ""))
  else if String.eqb (path params) "src/Raw.js"
  then Resolved (TextData sourceA)
  else Rejected (mkError "HttpError" "Not Found").

Definition fixtureEnv : Env :=
  mkEnv fixtureParse fixtureDecode fixtureRemote "Expensify" "App"
        (Some "feature").

Definition fooJs : ChangedFile := mkChangedFile "src/components/Foo.js" "added".
Definition fooTs : ChangedFile := mkChangedFile "src/libs/foo.ts" "added".
Definition arrowTsx : ChangedFile :=
  mkChangedFile "src/components/Arrow.tsx" "added".
Definition brokenJsx : ChangedFile := mkChangedFile "src/Broken.jsx" "added".
Definition nestedJs : ChangedFile := mkChangedFile "src/Nested.js" "added".
Definition bareJs : ChangedFile := mkChangedFile "src/Bare.js" "added".
Definition typedTsx : ChangedFile :=
  mkChangedFile "src/components/Typed.tsx" "added".
Definition emptyJs : ChangedFile := mkChangedFile "src/Empty.js" "added".
Definition rawJs : ChangedFile := mkChangedFile "src/Raw.js" "added".
Definition goneJs : ChangedFile := mkChangedFile "src/Gone.js" "added".
Definition readmeMd : ChangedFile := mkChangedFile "README.md" "added".
Definition editedJs : ChangedFile := mkChangedFile "src/App.js" "modified".

(* ------------------------------------------------------------------ *)
(** ** The avatar component ([Avatar.tsx]) *)

Module Avatar.

(** An avatar source is a URL, or an icon: a React component, which is the
    case [typeof avatarSource === 'function'] tells apart. *)
Inductive AvatarSource : Type :=
| SvgComponent (id : string)
| Url (uri : string).

(** The two icon types the component compares against
    ([CONST.ICON_TYPE_AVATAR], [CONST.ICON_TYPE_WORKSPACE]). *)
Inductive AvatarType : Type :=
| ICON_TYPE_AVATAR
| ICON_TYPE_WORKSPACE.

(** A style object: its properties with their values. *)
Definition ViewStyle : Type := list (string * string).

(** A style prop as React Native takes it: absent, [false], one style
    object, or an array of style props. *)
Inductive StyleProp : Type :=
| StyleUndefined
| StyleNull
| StyleFalse
| StyleObject (style : ViewStyle)
| StyleArray (items : list StyleProp).

(** The props of [AvatarProps]; every one of them is optional. *)
Record AvatarProps : Type := mkAvatarProps {
  source : option AvatarSource;
  imageStyles : StyleProp;
  iconAdditionalStyles : StyleProp;
  containerStyles : StyleProp;
  size : option string;
  fill : option string;
  fallbackIcon : option AvatarSource;
  type : option AvatarType;
  name : option string
}.

(** What the hooks and imported helpers of the component hand back: the
    theme colours, the themed styles, the style utilities, the fallback
    illustration, the default workspace avatar and the default size.  They
    are defined in other modules and enter here as they are called. *)
Record Hooks : Type := mkHooks {
  theme_icon : string;
  theme_offline : string;
  theme_fallbackIconColor : string;
  styles_noBorderRadius : ViewStyle;
  styles_bgTransparent : ViewStyle;
  styles_pointerEventsNone : ViewStyle;
  getAvatarSize : string -> nat;
  getAvatarStyle : string -> ViewStyle;
  getAvatarBorderStyle : string -> AvatarType -> ViewStyle;
  getDefaultWorkspaceAvatarColor : string -> ViewStyle;
  getBackgroundColorStyle : string -> ViewStyle;
  illustrations_FallbackAvatar : AvatarSource;
  getDefaultWorkspaceAvatar : string -> AvatarSource;
  AVATAR_SIZE_DEFAULT : string
}.

(** A state update requested by an event handler. *)
Inductive Handler : Type :=
| SetImageError (value : bool).

(** The rendered elements: [View], [Icon] and [Image] with the props the
    component passes. *)
Inductive Element : Type :=
| View (style : StyleProp) (children : list Element)
| Icon (src : AvatarSource) (height width : nat) (fill : option string)
       (additionalStyles : StyleProp)
| Image (uri : AvatarSource) (style : StyleProp) (onError : Handler).

(** JavaScript truthiness of a source: [undefined] and the empty string are
    falsy, a component and a non-empty string are truthy. *)
Definition isTruthySource (s : option AvatarSource) : bool :=
  match s with
  | None => false
  | Some (Url "") => false
  | Some _ => true
  end.

(** Truthiness of a style prop: objects and arrays, empty ones included. *)
Definition isTruthyStyle (s : StyleProp) : bool :=
  match s with
  | StyleUndefined | StyleNull | StyleFalse => false
  | StyleObject _ | StyleArray _ => true
  end.

(** [typeof s === 'function']. *)
Definition isFunction (s : AvatarSource) : bool :=
  match s with
  | SvgComponent _ => true
  | Url _ => false
  end.

Definition AvatarType_eqb (a b : AvatarType) : bool :=
  match a, b with
  | ICON_TYPE_AVATAR, ICON_TYPE_AVATAR => true
  | ICON_TYPE_WORKSPACE, ICON_TYPE_WORKSPACE => true
  | _, _ => false
  end.

(** Reading one property of a style object; [None] is [undefined]. *)
Fixpoint getProperty (key : string) (style : ViewStyle) : option string :=
  match style with
  | [] => None
  | (k, v) :: rest => if String.eqb k key then Some v else getProperty key rest
  end.

(** [value ?? fallback]. *)
Definition nullish {A : Type} (value : option A) (fallback : A) : A :=
  match value with
  | Some v => v
  | None => fallback
  end.

(** [a && b] where [a] is a boolean and [b] a style. *)
Definition andStyle (a : bool) (b : ViewStyle) : StyleProp :=
  if a then StyleObject b else StyleFalse.

(** The fallback avatar of the [useMemo] (lines 74-77). *)
Definition fallbackAvatarOf (h : Hooks) (p : AvatarProps) : AvatarSource :=
  let type := nullish (type p) ICON_TYPE_AVATAR in
  let name := nullish (name p) "" in
  let isWorkspace := AvatarType_eqb type ICON_TYPE_WORKSPACE in
  if isWorkspace then getDefaultWorkspaceAvatar h name
  else nullish (fallbackIcon p) (illustrations_FallbackAvatar h).

(** The function component [Avatar] (lines 50-120), as a function of the
    props, of what the hooks return and of the [imageError] state; [None]
    is the [null] it returns. *)
Definition Avatar (h : Hooks) (p : AvatarProps) (imageError : bool)
  : option Element :=
  let size := nullish (size p) (AVATAR_SIZE_DEFAULT h) in
  let type := nullish (type p) ICON_TYPE_AVATAR in
  let name := nullish (name p) "" in
  let isWorkspace := AvatarType_eqb type ICON_TYPE_WORKSPACE in
  let fallbackAvatar := fallbackAvatarOf h p in
  if negb (isTruthySource (source p)) then None
  else
    match source p with
    | None => None
    | Some source =>
        let iconSize := getAvatarSize h size in
        let imageStyle :=
          StyleArray [StyleObject (getAvatarStyle h size); imageStyles p;
                      StyleObject (styles_noBorderRadius h)] in
        let iconStyle :=
          if isTruthyStyle (imageStyles p)
          then StyleArray [StyleObject (getAvatarStyle h size);
                           StyleObject (styles_bgTransparent h);
                           imageStyles p]
          else StyleUndefined in
        let iconFillColor :=
          if isWorkspace
          then getProperty "fill" (getDefaultWorkspaceAvatarColor h name)
          else Some (nullish (fill p) (theme_icon h)) in
        let avatarSource := if imageError then fallbackAvatar else source in
        Some
          (View (StyleArray [containerStyles p;
                             StyleObject (styles_pointerEventsNone h)])
             [if isFunction avatarSource
              then
                View iconStyle
                  [Icon avatarSource iconSize iconSize
                     (if imageError then Some (theme_offline h)
                      else iconFillColor)
                     (StyleArray
                        [StyleObject (getAvatarBorderStyle h size type);
                         andStyle isWorkspace
                                  (getDefaultWorkspaceAvatarColor h name);
                         andStyle imageError
                                  (getBackgroundColorStyle h
                                     (theme_fallbackIconColor h));
                         iconAdditionalStyles p])]
              else
                View (StyleArray
                        [iconStyle;
                         StyleObject (getAvatarBorderStyle h size type);
                         iconAdditionalStyles p])
                  [Image avatarSource imageStyle (SetImageError true)]])
    end.

Definition AvatarSource_eqb (a b : AvatarSource) : bool :=
  match a, b with
  | SvgComponent x, SvgComponent y => String.eqb x y
  | Url x, Url y => String.eqb x y
  | _, _ => false
  end.

(** [Object.is] on two values of the [source] dependency. *)
Definition sameSource (a b : option AvatarSource) : bool :=
  match a, b with
  | None, None => true
  | Some x, Some y => AvatarSource_eqb x y
  | _, _ => false
  end.

(** A mounted component between two renders: the props and the
    [imageError] state of its last committed render, and the [source] the
    effect of lines 69-71 last ran for ([None] while it has not run yet).
    The effect runs after the render is committed, so a render can be on
    screen while its effect is still pending. *)
Record Instance : Type := mkInstance {
  props : AvatarProps;
  imageError : bool;
  lastEffect : option (option AvatarSource)
}.

(** What is on screen. *)
Definition render (h : Hooks) (i : Instance) : option Element :=
  Avatar h (props i) (imageError i).

(** The first render: [useState(false)]; the effect has not run yet. *)
Definition mount (p : AvatarProps) : Instance := mkInstance p false None.

(** The effect is pending when it has never run or when [source] differs
    from the one it last ran for. *)
Definition effectPending (i : Instance) : bool :=
  match lastEffect i with
  | None => true
  | Some previous => negb (sameSource previous (source (props i)))
  end.

(** The pending effect runs: [setImageError(false)] (lines 69-71). *)
Definition runEffects (i : Instance) : Instance :=
  if effectPending i
  then mkInstance (props i) false (Some (source (props i)))
  else i.

Definition runHandler (handler : Handler) (i : Instance) : Instance :=
  match handler with
  | SetImageError value => mkInstance (props i) value (lastEffect i)
  end.

(** The [onError] handlers of the images in a tree, in document order. *)
Fixpoint onErrorHandlers (e : Element) : list Handler :=
  match e with
  | View _ children =>
      (fix walk (l : list Element) : list Handler :=
         match l with
         | [] => []
         | child :: rest => onErrorHandlers child ++ walk rest
         end) children
  | Icon _ _ _ _ _ => []
  | Image _ _ onError => [onError]
  end.

(** The sources shown by a tree: the [src] of its icons and the [uri] of
    its images, in document order. *)
Fixpoint shownSources (e : Element) : list AvatarSource :=
  match e with
  | View _ children =>
      (fix walk (l : list Element) : list AvatarSource :=
         match l with
         | [] => []
         | child :: rest => shownSources child ++ walk rest
         end) children
  | Icon src _ _ _ _ => [src]
  | Image uri _ _ => [uri]
  end.

(** The image on screen fails to load: its [onError] runs.  Without an
    image on screen nothing can fail. *)
Definition imageFailed (h : Hooks) (i : Instance) : Instance :=
  match render h i with
  | Some tree => fold_left (fun i' handler => runHandler handler i')
                           (onErrorHandlers tree) i
  | None => i
  end.

(** The [onReconnect] callback given to [useNetwork] (line 67). *)
Definition onReconnect (i : Instance) : Instance :=
  mkInstance (props i) false (lastEffect i).

(** New props arrive and are rendered.  The effects of the previous render
    run before a new render starts; the new render keeps the [imageError]
    it finds, and its own effect runs later. *)
Definition setProps (p : AvatarProps) (i : Instance) : Instance :=
  mkInstance p (imageError (runEffects i)) (lastEffect (runEffects i)).

(** What can happen to a mounted component. *)
Inductive Event : Type :=
| ImageLoadFailed
| Reconnected
| PropsChanged (p : AvatarProps)
| EffectsRun.

Definition step (h : Hooks) (i : Instance) (ev : Event) : Instance :=
  match ev with
  | ImageLoadFailed => imageFailed h i
  | Reconnected => onReconnect i
  | PropsChanged p => setProps p i
  | EffectsRun => runEffects i
  end.

Definition run (h : Hooks) (i : Instance) (events : list Event) : Instance :=
  fold_left (step h) events i.

(** The error state is on only for a non-empty URL: the current source, or
    the source the effect last ran for. *)
Definition errorOnlyForUrl (i : Instance) : Prop :=
  imageError i = true ->
  (exists u, u <> "" /\ source (props i) = Some (Url u)) \/
  (exists u, u <> "" /\ lastEffect i = Some (Some (Url u))).

Definition withFill (p : AvatarProps) (value : option string) : AvatarProps :=
  mkAvatarProps (source p) (imageStyles p) (iconAdditionalStyles p)
                (containerStyles p) (size p) value (fallbackIcon p)
                (type p) (name p).

Definition withFallbackIcon (p : AvatarProps) (value : option AvatarSource)
  : AvatarProps :=
  mkAvatarProps (source p) (imageStyles p) (iconAdditionalStyles p)
                (containerStyles p) (size p) (fill p) value
                (type p) (name p).

Definition withSource (p : AvatarProps) (value : option AvatarSource)
  : AvatarProps :=
  mkAvatarProps value (imageStyles p) (iconAdditionalStyles p)
                (containerStyles p) (size p) (fill p) (fallbackIcon p)
                (type p) (name p).

(** Sample hooks and props for the examples. *)
Definition sampleHooks : Hooks :=
  mkHooks "#8B9C8F" "#AFBBB0" "#E6E1DA"
          [("borderRadius", "0")] [("backgroundColor", "transparent")]
          [("pointerEvents", "none")]
          (fun size => if String.eqb size "large" then 80 else 40)
          (fun size => [("avatarSize", size)])
          (fun size type => [("borderFor", size)])
          (fun name => [("backgroundColor", "#F25730"); ("fill", "#FFD7B0")])
          (fun color => [("backgroundColor", color)])
          (SvgComponent "FallbackAvatar")
          (fun name => SvgComponent ("Workspace-" ++ name))
          "default".

Definition userProps : AvatarProps :=
  mkAvatarProps (Some (Url "https://example.com/a.png")) StyleUndefined
                StyleUndefined StyleUndefined None (Some "red") None None None.

Definition workspaceProps : AvatarProps :=
  mkAvatarProps (Some (SvgComponent "Building")) StyleUndefined
                StyleUndefined StyleUndefined (Some "large") (Some "red")
                (Some (Url "https://example.com/fallback.png"))
                (Some ICON_TYPE_WORKSPACE) (Some "Acme").

End Avatar.

(* ------------------------------------------------------------------ *)
(** ** Properties of the file filter *)

Section FileFilter.

Lemma endsWith_unfold (s suffix : string) :
  endsWith s suffix =
  if String.eqb s suffix then true
  else match s with
       | EmptyString => false
       | String _ rest => endsWith rest suffix
       end.
Proof. destruct s; reflexivity. Qed.

(** [endsWith] finds exactly the suffixes. *)
Lemma endsWith_suffix (s suffix : string) :
  endsWith s suffix = true <-> exists stem, s = (stem ++ suffix)%string.
Proof.
  induction s as [| c rest IH]; rewrite endsWith_unfold.
  - destruct (String.eqb_spec "" suffix) as [E | N].
    + split; [intros _; exists ""; exact E | reflexivity].
    + split; [discriminate |].
      intros [stem E]. destruct stem; simpl in E.
      * contradiction.
      * discriminate E.
  - destruct (String.eqb_spec (String c rest) suffix) as [E | N].
    + split; [intros _; exists ""; exact E | reflexivity].
    + rewrite IH. split.
      * intros [stem ->]. exists (String c stem). reflexivity.
      * intros [stem E]. destruct stem as [| d stem]; simpl in E.
        -- contradiction.
        -- injection E as _ E. exists stem. exact E.
Qed.

Lemma filterFiles_spec (f : ChangedFile) :
  filterFiles f = true <->
  status f = "added" /\
  exists stem ext, In ext [".js"; ".jsx"; ".ts"; ".tsx"] /\
                   filename f = (stem ++ ext)%string.
Proof.
  unfold filterFiles.
  destruct (String.eqb_spec (status f) "added") as [E | N]; simpl.
  - rewrite !orb_true_iff, !endsWith_suffix. split.
    + intros [[[[stem H] | [stem H]] | [stem H]] | [stem H]];
        (split; [exact E |]); eexists stem, _; (split; [| exact H]);
        simpl; tauto.
    + intros [_ [stem [ext [Hin H]]]]. simpl in Hin.
      destruct Hin as [<- | [<- | [<- | [<- | []]]]]; eauto.
  - split; [discriminate |]. intros [E _]. contradiction.
Qed.

Lemma filter_Subsequence {A : Type} (keep : A -> bool) (l : list A) :
  Subsequence (filter keep l) l.
Proof.
  induction l as [| x l IH]; simpl.
  - constructor.
  - destruct (keep x); constructor; exact IH.
Qed.

Lemma Subsequence_length {A : Type} (xs ys : list A) :
  Subsequence xs ys -> length xs <= length ys.
Proof.
  induction 1; simpl; lia.
Qed.

Lemma filteredFiles_none (files : list ChangedFile) :
  (forall f, In f files -> filterFiles f = false) ->
  filteredFiles files = [].
Proof.
  unfold filteredFiles. induction files as [| f files IH]; simpl; intro H.
  - reflexivity.
  - rewrite (H f (or_introl eq_refl)). apply IH.
    intros g Hg. apply H. right. exact Hg.
Qed.

Lemma filteredFiles_incl (small large : list ChangedFile) :
  incl small large -> incl (filteredFiles small) (filteredFiles large).
Proof.
  unfold filteredFiles. intros Hincl f Hf.
  apply filter_In in Hf. destruct Hf as [Hin Hkeep].
  apply filter_In. split; [apply Hincl; exact Hin | exact Hkeep].
Qed.

End FileFilter.

(** C6 (counterexample): the filter keeps a list of added source files
    whole, so its output is not always a strict subset of its input: on the
    one-file list [src/components/Foo.js, added] the output is the input. *)
Lemma filteredFiles_keeps_everything_sometimes :
  ~ StrictSubsequence (filteredFiles [fooJs]) [fooJs].
Proof.
  intros [_ Hneq]. apply Hneq. reflexivity.
Qed.

(** C6 (amended): for every list of changed files, the empty one included,
    the output of the file filter is a subsequence of the input (same
    order, possibly the whole input), it is no longer than the input, and it
    holds exactly the input entries whose status is [added] and whose file
    name ends, character for character, with one of .js, .jsx, .ts, .tsx. *)
Theorem filteredFiles_subsequence_of_added_sources (files : list ChangedFile) :
  Subsequence (filteredFiles files) files /\
  length (filteredFiles files) <= length files /\
  (forall f, In f (filteredFiles files) <->
             In f files /\ status f = "added" /\
             exists stem ext, In ext [".js"; ".jsx"; ".ts"; ".tsx"] /\
                              filename f = (stem ++ ext)%string).
Proof.
  split; [apply filter_Subsequence |].
  split; [apply Subsequence_length, filter_Subsequence |].
  intro f. unfold filteredFiles. rewrite filter_In, filterFiles_spec.
  reflexivity.
Qed.

(** The suffix match is case-sensitive and nothing is normalised: an upper
    case extension or status, a trailing dot or a different extension is
    dropped, and so is a source file that was not added. *)
Example filteredFiles_examples :
  filteredFiles [mkChangedFile "A.JS" "added"; mkChangedFile "b.js." "added";
                 mkChangedFile "c.json" "added"; mkChangedFile ".tsx" "added";
                 mkChangedFile "e.js" "Added";
                 editedJs; fooTs; readmeMd; mkChangedFile "d.test.jsx" "added"]
  = [mkChangedFile ".tsx" "added"; fooTs; mkChangedFile "d.test.jsx" "added"].
Proof. reflexivity. Qed.

(* ------------------------------------------------------------------ *)
(** ** The traversal *)

Section TreeInduction.

(** Induction on a tree with the hypothesis on every child node. *)
Lemma Node_children_ind (P : Node -> Prop) :
  (forall n, (forall c, In c (childNodes n) -> P c) -> P n) ->
  forall n, P n.
Proof.
  intro step. fix IH 1. intro n. apply step.
  assert (onList : forall l : list Node,
            (fix all (l : list Node) : Prop :=
               match l with [] => True | c :: r => P c /\ all r end) l ->
            forall c, In c l -> P c).
  { induction l as [| a l IHl]; simpl; intros H c Hc.
    - contradiction.
    - destruct Hc as [<- | Hc]; [apply H | apply IHl; [apply H | exact Hc]]. }
  pose (build := fun IH' : forall n, P n =>
          fix build (l : list Node) :
            (fix all (l : list Node) : Prop :=
               match l with [] => True | c :: r => P c /\ all r end) l :=
            match l with
            | [] => I
            | c :: r => conj (IH' c) (build r)
            end).
  destruct n as [name cs | cs | | | | | t c0 a | callee args | ps b | i ps b
                | i ps b | arg | name init | e | t c0 alt | b | i ms
                | k ps b | d | d];
    simpl; intros c Hc.
  - exact (onList cs (build IH cs) c Hc).
  - exact (onList cs (build IH cs) c Hc).
  - contradiction.
  - contradiction.
  - contradiction.
  - contradiction.
  - destruct Hc as [<- | [<- | [<- | []]]]; apply IH.
  - destruct Hc as [<- | Hc]; [apply IH |].
    exact (onList args (build IH args) c Hc).
  - destruct Hc as [<- | []]; apply IH.
  - exact (onList b (build IH b) c Hc).
  - exact (onList b (build IH b) c Hc).
  - destruct arg as [a |]; simpl in Hc; [| contradiction].
    destruct Hc as [<- | []]; apply IH.
  - destruct init as [a |]; simpl in Hc; [| contradiction].
    destruct Hc as [<- | []]; apply IH.
  - destruct Hc as [<- | []]; apply IH.
  - destruct Hc as [<- | [<- | Hc]]; [apply IH | apply IH |].
    destruct alt as [a |]; simpl in Hc; [| contradiction].
    destruct Hc as [<- | []]; apply IH.
  - exact (onList b (build IH b) c Hc).
  - exact (onList ms (build IH ms) c Hc).
  - exact (onList b (build IH b) c Hc).
  - destruct Hc as [<- | []]; apply IH.
  - destruct Hc as [<- | []]; apply IH.
Qed.

Lemma preorder_unfold (n : Node) :
  preorder n = n :: flat_map preorder (childNodes n).
Proof.
  destruct n as [name cs | cs | | | | | t c0 a | callee args | ps b | i ps b
                | i ps b | [arg |] | name [init |] | e | t c0 [alt |] | b
                | i ms | k ps b | d | d];
    simpl; rewrite ?app_nil_r; reflexivity.
Qed.

(** The nodes met by the traversal are the nodes within the tree. *)
Lemma preorder_Within (d n : Node) : In d (preorder n) <-> Within d n.
Proof.
  split.
  - revert d. induction n as [n IH] using Node_children_ind. intros d Hd.
    rewrite preorder_unfold in Hd. destruct Hd as [<- | Hd].
    + constructor.
    + apply in_flat_map in Hd. destruct Hd as [c [Hc Hd]].
      apply (Within_child d n c Hc). apply IH; assumption.
  - induction 1 as [| n c Hc _ IH].
    + rewrite preorder_unfold. left. reflexivity.
    + rewrite preorder_unfold. right. apply in_flat_map.
      exists c. split; assumption.
Qed.

End TreeInduction.

Section TraverseFacts.

Context {S : Type}.
Variable visitor : Node -> S -> M S.

Lemma bind_run {A B : Type} (m : M A) (k : A -> M B) (w : World) :
  bind m k w =
  match m w with
  | (Return a, w') => k a w'
  | (Throw e, w') => (Throw e, w')
  end.
Proof. reflexivity. Qed.

Lemma visitEach_app (l1 l2 : list Node) (s : S) (w : World) :
  visitEach visitor (l1 ++ l2) s w =
  (s' <- visitEach visitor l1 s ;; visitEach visitor l2 s') w.
Proof.
  revert s w. induction l1 as [| n l1 IH]; intros s w; simpl.
  - reflexivity.
  - rewrite !bind_run. destruct (visitor n s w) as [[s' | e] w'].
    + rewrite IH. reflexivity.
    + reflexivity.
Qed.

Lemma traverseList_cons (go : Node -> S -> M S) (n : Node) (rest : list Node)
  (s : S) (w : World) :
  traverseList go (n :: rest) s w =
  (s' <- go n s ;; traverseList go rest s') w.
Proof. reflexivity. Qed.

Lemma traverseList_flat (go : Node -> S -> M S) (l : list Node) :
  (forall c, In c l ->
     forall s w, go c s w = visitEach visitor (preorder c) s w) ->
  forall s w,
    traverseList go l s w = visitEach visitor (flat_map preorder l) s w.
Proof.
  induction l as [| n rest IH]; intros Hgo s w.
  - reflexivity.
  - rewrite traverseList_cons. simpl flat_map. rewrite visitEach_app.
    rewrite !bind_run. rewrite (Hgo n (or_introl eq_refl)).
    destruct (visitEach visitor (preorder n) s w) as [[s' | e] w'].
    + apply IH. intros c Hc. apply Hgo. right. exact Hc.
    + reflexivity.
Qed.

Lemma traverseNode_unfold (n : Node) (s : S) (w : World) :
  traverseNode visitor n s w =
  (s0 <- visitor n s ;;
   traverseList (traverseNode visitor) (childNodes n) s0) w.
Proof.
  destruct n as [name cs | cs | | | | | t c0 a | callee args | ps b | i ps b
                | i ps b | [arg |] | name [init |] | e | t c0 [alt |] | b
                | i ms | k ps b | d | d];
    simpl; unfold bind, ret, traverseOption;
    repeat match goal with
      | |- context [match ?m ?x ?y ?z with _ => _ end] =>
          destruct (m x y z) as [[? | ?] ?]
      end; reflexivity.
Qed.

(** The traversal of a node is the visitor run over its nodes in
    pre-order. *)
Lemma traverseNode_preorder (n : Node) :
  forall s w,
    traverseNode visitor n s w = visitEach visitor (preorder n) s w.
Proof.
  induction n as [n IH] using Node_children_ind. intros s w.
  rewrite traverseNode_unfold, preorder_unfold. simpl visitEach.
  rewrite !bind_run. destruct (visitor n s w) as [[s0 | e] w0].
  - apply traverseList_flat. exact IH.
  - reflexivity.
Qed.

Lemma traverse_preorder (ast : list Node) (s : S) (w : World) :
  traverse visitor ast s w = visitEach visitor (flat_map preorder ast) s w.
Proof.
  unfold traverse. apply traverseList_flat.
  intros c _. apply traverseNode_preorder.
Qed.

End TraverseFacts.

(* ------------------------------------------------------------------ *)
(** ** Properties of [detectReactComponent] *)

Section Classifier.

Lemma addConsole_nil (w : World) : addConsole w [] = w.
Proof. destruct w. unfold addConsole. simpl. rewrite app_nil_r. reflexivity. Qed.

Lemma addConsole_app (w : World) (a b : list LogEntry) :
  addConsole (addConsole w a) b = addConsole w (a ++ b).
Proof. unfold addConsole. simpl. rewrite app_assoc. reflexivity. Qed.

Lemma isJSXReturn_spec (node : Node) :
  isJSXReturn node = true <->
  exists tag children, node = ReturnStatement (Some (JSXElement tag children)).
Proof.
  split.
  - destruct node as [| | | | | | | | | | | [[] |] | | | | | | | |]; simpl;
      try discriminate.
    intros _. eexists _, _. reflexivity.
  - intros [tag [children ->]]. reflexivity.
Qed.

Lemma isComponentDeclaration_spec (node : Node) :
  isComponentDeclaration node = true <->
  exists name params body tag children,
    node = FunctionDeclaration (Some name) params body /\
    In (ReturnStatement (Some (JSXElement tag children))) body.
Proof.
  split.
  - destruct node as [| | | | | | | | | | [name |] params body | | | | | | | | |];
      simpl; try discriminate.
    intro H. apply existsb_exists in H. destruct H as [s [Hin Hs]].
    apply isJSXReturn_spec in Hs. destruct Hs as [tag [children ->]].
    exists name, params, body, tag, children. split; [reflexivity | exact Hin].
  - intros [name [params [body [tag [children [-> Hin]]]]]]. simpl.
    apply existsb_exists. eexists. split; [exact Hin | reflexivity].
Qed.

(** The callback of [_.some] leaves the world alone. *)
Lemma returnsJSXElement_run (node : Node) (w : World) :
  returnsJSXElement node w =
  (match node with
   | ReturnStatement None =>
       Throw (TypeError "Cannot read properties of null (reading 'type')")
   | _ => Return (isJSXReturn node)
   end, w).
Proof.
  destruct node as [| | | | | | | | | | | [[] |] | | | | | | | |]; reflexivity.
Qed.

Lemma some_returnsJSXElement_pure (body : list Node) :
  exists r, forall w, some returnsJSXElement body w = (r, w).
Proof.
  induction body as [| node body [r IH]]; simpl.
  - eexists. intro w. reflexivity.
  - destruct node as [| | | | | | | | | | | [[] |] | | | | | | | |];
      try (exists r; intro w; unfold bind; simpl; apply IH).
    + eexists. intro w. reflexivity.
    + eexists. intro w. reflexivity.
Qed.

Lemma some_returnsJSXElement_found (body : list Node) (w : World) :
  ~ In (ReturnStatement None) body ->
  some returnsJSXElement body w = (Return (existsb isJSXReturn body), w).
Proof.
  induction body as [| node body IH]; simpl; intro Hbare.
  - reflexivity.
  - unfold bind. rewrite returnsJSXElement_run.
    assert (Hrest : ~ In (ReturnStatement None) body) by tauto.
    destruct node as [| | | | | | | | | | | [arg |] | | | | | | | |];
      cbv beta iota;
      try (destruct (isJSXReturn _); [reflexivity | apply IH; exact Hrest]).
    exfalso. apply Hbare. left. reflexivity.
Qed.

Lemma visitFunctionDeclaration_shape (file : string) (node : Node)
  (flag : bool) :
  exists r logs,
    (forall w, visitFunctionDeclaration file node flag w
               = (r, addConsole w logs)) /\
    (bareFree node -> r = Return (flag || isComponentDeclaration node)).
Proof.
  destruct node as [| | | | | | | | | | [name |] params body | | | | | | | | |];
    try (exists (Return flag), []; split;
         [intro w; rewrite addConsole_nil; reflexivity
         | intros _; simpl; rewrite orb_false_r; reflexivity]).
  1: simpl; destruct flag.
  - exists (Return true), []. split.
    + intro w. rewrite addConsole_nil. reflexivity.
    + reflexivity.
  - destruct (some_returnsJSXElement_pure body) as [r Hr].
    destruct r as [[|] | e].
    + exists (Return true),
             [ConsoleLog ["Detected react component in file"; file]].
      split.
      * intro w. unfold bind. rewrite Hr. reflexivity.
      * intro Hbare. simpl.
        pose proof (some_returnsJSXElement_found body emptyWorld
                      (Hbare name params body eq_refl)) as Hf.
        rewrite Hr in Hf. injection Hf as <-. reflexivity.
    + exists (Return false), []. split.
      * intro w. unfold bind. rewrite Hr, addConsole_nil. reflexivity.
      * intro Hbare. simpl.
        pose proof (some_returnsJSXElement_found body emptyWorld
                      (Hbare name params body eq_refl)) as Hf.
        rewrite Hr in Hf. injection Hf as <-. reflexivity.
    + exists (Throw e), []. split.
      * intro w. unfold bind. rewrite Hr, addConsole_nil. reflexivity.
      * intro Hbare.
        pose proof (some_returnsJSXElement_found body emptyWorld
                      (Hbare name params body eq_refl)) as Hf.
        rewrite Hr in Hf. discriminate Hf.
  - exists (Return flag), []. split.
    + intro w. rewrite addConsole_nil. destruct flag; reflexivity.
    + intros _. simpl. rewrite orb_false_r. reflexivity.
Qed.

Lemma visitEach_shape (file : string) (l : list Node) (flag : bool) :
  exists r logs,
    (forall w, visitEach (visitFunctionDeclaration file) l flag w
               = (r, addConsole w logs)) /\
    ((forall node, In node l -> bareFree node) ->
     r = Return (flag || existsb isComponentDeclaration l)).
Proof.
  revert flag. induction l as [| node l IH]; intro flag.
  - exists (Return flag), []. split.
    + intro w. rewrite addConsole_nil. reflexivity.
    + intros _. simpl. rewrite orb_false_r. reflexivity.
  - destruct (visitFunctionDeclaration_shape file node flag)
      as [r [logs [Hrun Hres]]].
    destruct r as [flag' | e].
    + destruct (IH flag') as [r' [logs' [Hrun' Hres']]].
      exists r', (logs ++ logs'). split.
      * intro w. simpl. unfold bind. rewrite Hrun, Hrun', addConsole_app.
        reflexivity.
      * intro Hbare.
        assert (E : Return flag' = Return (flag || isComponentDeclaration node)).
        { apply Hres. apply Hbare. left. reflexivity. }
        injection E as ->. rewrite Hres'.
        -- simpl. rewrite orb_assoc. reflexivity.
        -- intros n Hn. apply Hbare. right. exact Hn.
    + exists (Throw e), logs. split.
      * intro w. simpl. unfold bind. rewrite Hrun. reflexivity.
      * intro Hbare.
        assert (E : Throw e = Return (flag || isComponentDeclaration node)).
        { apply Hres. apply Hbare. left. reflexivity. }
        discriminate E.
Qed.

Lemma NoBareReturn_bareFree (ast : list Node) :
  NoBareReturn ast ->
  forall node, In node (flat_map preorder ast) -> bareFree node.
Proof.
  intros Hbare node Hnode name params body ->.
  apply in_flat_map in Hnode. destruct Hnode as [top [Htop Hin]].
  apply preorder_Within in Hin.
  exact (Hbare top name params body Htop Hin).
Qed.

Lemma traverse_shape (file : string) (ast : list Node) :
  exists r logs,
    (forall w, traverse (visitFunctionDeclaration file) ast false w
               = (r, addConsole w logs)) /\
    (NoBareReturn ast ->
     r = Return (existsb isComponentDeclaration (flat_map preorder ast))).
Proof.
  destruct (visitEach_shape file (flat_map preorder ast) false)
    as [r [logs [Hrun Hres]]].
  exists r, logs. split.
  - intro w. rewrite traverse_preorder. apply Hrun.
  - intro Hbare. apply Hres. apply NoBareReturn_bareFree. exact Hbare.
Qed.

(** Some named function declaration of the program, at any depth, returns
    a JSX element from its own statement list. *)
Lemma component_within_spec (ast : list Node) :
  existsb isComponentDeclaration (flat_map preorder ast) = true <->
  exists top name params body tag children,
    In top ast /\
    Within (FunctionDeclaration (Some name) params body) top /\
    In (ReturnStatement (Some (JSXElement tag children))) body.
Proof.
  rewrite existsb_exists. split.
  - intros [node [Hin Hc]]. apply isComponentDeclaration_spec in Hc.
    destruct Hc as [name [params [body [tag [children [-> Hret]]]]]].
    apply in_flat_map in Hin. destruct Hin as [top [Htop Hin]].
    apply preorder_Within in Hin.
    exists top, name, params, body, tag, children. repeat split; assumption.
  - intros [top [name [params [body [tag [children [Htop [Hw Hret]]]]]]]].
    exists (FunctionDeclaration (Some name) params body). split.
    + apply in_flat_map. exists top. split; [exact Htop |].
      apply preorder_Within. exact Hw.
    + apply isComponentDeclaration_spec.
      exists name, params, body, tag, children. split; [reflexivity | exact Hret].
Qed.

(** The guard of lines 22-25. *)
Lemma detectReactComponent_falsy (env : Env) (code : JsCode) (file : string)
  (w : World) :
  isTruthyCode code = false ->
  detectReactComponent env code file w =
  (Return None,
   addConsole w [ConsoleError ["failed to get code from a filename";
                               showCode code; file]]).
Proof.
  intro H. unfold detectReactComponent. rewrite H. reflexivity.
Qed.

Lemma detectReactComponent_unparseable (env : Env) (code : JsCode)
  (file : string) (error : Error) (w : World) :
  isTruthyCode code = true ->
  parse env babelOptions code = ParseFailed error ->
  detectReactComponent env code file w =
  (Throw error,
   mkWorld (fetchCalls w) (parseCalls w ++ [code]) (console w)).
Proof.
  intros Ht Hp. unfold detectReactComponent, babelParse, bind, logParse.
  rewrite Ht. simpl. rewrite Hp. reflexivity.
Qed.

Lemma detectReactComponent_parsed (env : Env) (code : JsCode) (file : string)
  (ast : list Node) :
  isTruthyCode code = true ->
  parse env babelOptions code = Parsed ast ->
  exists r logs,
    (forall w,
       detectReactComponent env code file w =
       (match r with
        | Return b => Return (Some b)
        | Throw e => Throw e
        end,
        mkWorld (fetchCalls w) (parseCalls w ++ [code]) (console w ++ logs))) /\
    (NoBareReturn ast ->
     r = Return (existsb isComponentDeclaration (flat_map preorder ast))).
Proof.
  intros Ht Hp. destruct (traverse_shape file ast) as [r [logs [Hrun Hres]]].
  exists r, logs. split; [| exact Hres].
  intro w. unfold detectReactComponent, babelParse, bind, logParse.
  rewrite Ht. simpl. rewrite Hp. unfold ret at 1. rewrite Hrun.
  destruct r; reflexivity.
Qed.

(** In every case: no request, at most the one parse, and console lines. *)
Lemma detectReactComponent_shape (env : Env) (code : JsCode) (file : string) :
  exists r logs, forall w,
    detectReactComponent env code file w =
    (r, mkWorld (fetchCalls w)
                (parseCalls w ++ (if isTruthyCode code then [code] else []))
                (console w ++ logs)).
Proof.
  destruct (isTruthyCode code) eqn:Ht.
  - destruct (parse env babelOptions code) as [ast | error] eqn:Hp.
    + destruct (detectReactComponent_parsed env code file ast Ht Hp)
        as [r [logs [Hrun _]]].
      eexists _, logs. exact Hrun.
    + exists (Throw error), []. intro w.
      rewrite (detectReactComponent_unparseable env code file error w Ht Hp).
      rewrite app_nil_r. reflexivity.
  - eexists _, _. intro w.
    rewrite (detectReactComponent_falsy env code file w Ht).
    unfold addConsole. rewrite app_nil_r. reflexivity.
Qed.

End Classifier.

(** C1 (counterexample): a function declaration nested in another one is
    counted.  The source [function outer() { function Inner() { return
    <div/>; } return Inner; }] is classified [true], although no top-level
    declaration of its tree returns a JSX element from its own statement
    list. *)
Lemma detectReactComponent_counts_nested_declaration :
  parse fixtureEnv babelOptions (Text sourceN) = Parsed astN /\
  verdict (detectReactComponent fixtureEnv (Text sourceN) "src/Nested.js"
             emptyWorld) = Return (Some true) /\
  ~ (exists name params body tag children,
        In (FunctionDeclaration (Some name) params body) astN /\
        In (ReturnStatement (Some (JSXElement tag children))) body).
Proof.
  split; [reflexivity |]. split; [reflexivity |].
  intros [name [params [body [tag [children [Hin Hret]]]]]].
  destruct Hin as [E | []]. injection E as _ _ <-.
  destruct Hret as [E | [E | []]]; discriminate E.
Qed.

(** C1 (amended): on a source in whose tree no named function declaration
    has a return without argument in its own statement list,
    [detectReactComponent] answers [true] exactly when the source is
    non-empty, parses, and some named function declaration of the tree, at
    any depth, has in its own statement list a return statement whose
    argument is a JSX element. *)
Theorem detectReactComponent_true_iff
  (env : Env) (code : JsCode) (file : string) (w : World) :
  (forall ast, parse env babelOptions code = Parsed ast -> NoBareReturn ast) ->
  (verdict (detectReactComponent env code file w) = Return (Some true) <->
   isTruthyCode code = true /\
   exists ast, parse env babelOptions code = Parsed ast /\
     exists top name params body tag children,
       In top ast /\
       Within (FunctionDeclaration (Some name) params body) top /\
       In (ReturnStatement (Some (JSXElement tag children))) body).
Proof.
  intro Hbare. unfold verdict.
  destruct (isTruthyCode code) eqn:Ht.
  2:{ rewrite (detectReactComponent_falsy env code file w Ht). simpl.
      split; [discriminate | intros [E _]; discriminate E]. }
  destruct (parse env babelOptions code) as [ast | error] eqn:Hp.
  2:{ rewrite (detectReactComponent_unparseable env code file error w Ht Hp).
      simpl. split; [discriminate |].
      intros [_ [ast [E _]]]. discriminate E. }
  destruct (detectReactComponent_parsed env code file ast Ht Hp)
    as [r [logs [Hrun Hres]]].
  rewrite Hrun, (Hres (Hbare ast eq_refl)). simpl. split.
  - intro H. injection H as H. split; [reflexivity |].
    exists ast. split; [reflexivity |]. apply component_within_spec. exact H.
  - intros [_ [ast' [E H]]]. injection E as <-.
    apply component_within_spec in H. rewrite H. reflexivity.
Qed.

Lemma detectReactComponent_true_iff_witness :
  (forall ast, parse fixtureEnv babelOptions (Text sourceN) = Parsed ast ->
               NoBareReturn ast) /\
  (verdict (detectReactComponent fixtureEnv (Text sourceN) "src/Nested.js"
              emptyWorld) = Return (Some true) <->
   isTruthyCode (Text sourceN) = true /\
   exists ast, parse fixtureEnv babelOptions (Text sourceN) = Parsed ast /\
     exists top name params body tag children,
       In top ast /\
       Within (FunctionDeclaration (Some name) params body) top /\
       In (ReturnStatement (Some (JSXElement tag children))) body).
Proof.
  assert (H : forall ast,
             parse fixtureEnv babelOptions (Text sourceN) = Parsed ast ->
             NoBareReturn ast).
  { intros ast E. injection E as <-.
    intros top name params body Htop Hw Hret.
    apply preorder_Within in Hw. destruct Htop as [<- | []].
    simpl in Hw.
    repeat (destruct Hw as [E | Hw];
            [try discriminate E; injection E as _ _ <-; simpl in Hret;
             intuition discriminate |]).
    contradiction. }
  split; [exact H |].
  exact (detectReactComponent_true_iff fixtureEnv (Text sourceN)
           "src/Nested.js" emptyWorld H).
Defined.

(** Scenarios A, B and C, and the shapes the visitor counts or skips: a
    declaration nested in a function, in a block, in an arrow function, in
    a method or under an export is counted; a JSX return inside an [if], a
    method, a function expression, an anonymous declaration, a fragment
    and a conditional are not. *)
Example detectReactComponent_scenarios :
  let classify ast :=
    verdict (traverse (visitFunctionDeclaration "f.js") ast false emptyWorld) in
  classify astA = Return true /\
  classify astB = Return false /\
  classify astC = Return false /\
  classify astN = Return true /\
  classify [BlockStatement astA] = Return true /\
  classify [VariableDeclaration "make"
              (Some (ArrowFunctionExpression [] (BlockStatement astA)))]
    = Return true /\
  classify [ClassDeclaration "Page" [ClassMethod "render" [] astA]]
    = Return true /\
  classify [ExportDefaultDeclaration
              (FunctionDeclaration (Some "Foo") []
                 [ReturnStatement (Some (JSXElement "div" []))])]
    = Return true /\
  classify [FunctionDeclaration (Some "Foo") ["props"]
              [IfStatement (Identifier "props")
                 (BlockStatement
                    [ReturnStatement (Some (JSXElement "div" []))]) None;
               ReturnStatement (Some NullLiteral)]] = Return false /\
  classify [ClassDeclaration "Foo"
              [ClassMethod "render" []
                 [ReturnStatement (Some (JSXElement "div" []))]]]
    = Return false /\
  classify [VariableDeclaration "Foo"
              (Some (FunctionExpression (Some "Foo") []
                 [ReturnStatement (Some (JSXElement "div" []))]))]
    = Return false /\
  classify [ExportDefaultDeclaration
              (FunctionDeclaration None []
                 [ReturnStatement (Some (JSXElement "div" []))])]
    = Return false /\
  classify [FunctionDeclaration (Some "Foo") []
              [ReturnStatement (Some (JSXFragment []))]] = Return false /\
  classify [FunctionDeclaration (Some "Foo") ["a"]
              [ReturnStatement
                 (Some (ConditionalExpression (Identifier "a")
                          (JSXElement "div" []) NullLiteral))]]
    = Return false /\
  classify (astB ++ astC ++ astA) = Return true /\
  classify (astA ++ astR) = Return true /\
  classify (astR ++ astA)
    = Throw (TypeError "Cannot read properties of null (reading 'type')").
Proof. repeat split; reflexivity. Qed.

(** C9 (counterexample): for an empty source the guard of lines 22-25
    answers [undefined], which is no boolean; the same holds for a missing
    source. *)
Lemma detectReactComponent_undefined_on_empty :
  verdict (detectReactComponent fixtureEnv Undefined "src/Empty.js" emptyWorld)
    = Return None /\
  ~ (exists b : bool,
       verdict (detectReactComponent fixtureEnv (Text "") "src/Empty.js"
                  emptyWorld) = Return (Some b)).
Proof.
  split; [reflexivity |]. intros [b H]. discriminate H.
Qed.

(** C9 (amended): for an empty or missing source [detectReactComponent]
    logs an error and answers [undefined] without calling the parser; for a
    source the parser rejects it throws the parser's error; for a source
    the parser accepts, in whose tree no named function declaration has a
    return without argument in its own statement list, it answers a
    boolean. *)
Theorem detectReactComponent_result
  (env : Env) (code : JsCode) (file : string) (w : World) :
  (isTruthyCode code = false ->
   detectReactComponent env code file w =
     (Return None,
      mkWorld (fetchCalls w) (parseCalls w)
              (console w ++ [ConsoleError ["failed to get code from a filename";
                                           showCode code; file]]))) /\
  (forall error,
     isTruthyCode code = true ->
     parse env babelOptions code = ParseFailed error ->
     verdict (detectReactComponent env code file w) = Throw error) /\
  (forall ast,
     isTruthyCode code = true ->
     parse env babelOptions code = Parsed ast ->
     NoBareReturn ast ->
     exists b : bool,
       verdict (detectReactComponent env code file w) = Return (Some b)).
Proof.
  split; [| split].
  - intro Ht. apply detectReactComponent_falsy. exact Ht.
  - intros error Ht Hp.
    rewrite (detectReactComponent_unparseable env code file error w Ht Hp).
    reflexivity.
  - intros ast Ht Hp Hbare.
    destruct (detectReactComponent_parsed env code file ast Ht Hp)
      as [r [logs [Hrun Hres]]].
    rewrite Hrun, (Hres Hbare). eexists. reflexivity.
Qed.

Lemma detectReactComponent_result_witness :
  detectReactComponent fixtureEnv (Text "") "src/Empty.js" emptyWorld =
    (Return None,
     mkWorld [] []
             [ConsoleError ["failed to get code from a filename"; "";
                            "src/Empty.js"]]) /\
  verdict (detectReactComponent fixtureEnv (Text sourceD) "src/Broken.jsx"
             emptyWorld)
    = Throw (mkError "SyntaxError" "Unexpected token (1:16)") /\
  exists b : bool,
    verdict (detectReactComponent fixtureEnv (Text sourceB) "src/libs/foo.ts"
               emptyWorld) = Return (Some b).
Proof.
  split; [| split].
  - exact (proj1 (detectReactComponent_result fixtureEnv (Text "")
                    "src/Empty.js" emptyWorld) eq_refl).
  - exact (proj1 (proj2 (detectReactComponent_result fixtureEnv (Text sourceD)
                           "src/Broken.jsx" emptyWorld))
             _ eq_refl eq_refl).
  - refine (proj2 (proj2 (detectReactComponent_result fixtureEnv (Text sourceB)
                            "src/libs/foo.ts" emptyWorld))
              astB eq_refl eq_refl _).
    intros top name params body Htop Hw Hret.
    apply preorder_Within in Hw. destruct Htop as [<- | []]. simpl in Hw.
    repeat (destruct Hw as [E | Hw];
            [try discriminate E; injection E as _ _ <-; simpl in Hret;
             intuition discriminate |]).
    contradiction.
Defined.

(** C2: the parse call enables the [jsx] plugin and no other, whatever the
    file: a source the parser rejects under these options makes
    [detectReactComponent] throw, also when the type-annotation grammar
    would have accepted it. *)
Theorem detectReactComponent_parses_with_jsx_only
  (env : Env) (code : JsCode) (file : string) (error : Error) (w : World) :
  isTruthyCode code = true ->
  parse env (mkParserOptions sourceModule [jsx]) code = ParseFailed error ->
  detectReactComponent env code file w =
    (Throw error, mkWorld (fetchCalls w) (parseCalls w ++ [code]) (console w)).
Proof.
  intros Ht Hp. apply detectReactComponent_unparseable; assumption.
Qed.

Lemma detectReactComponent_parses_with_jsx_only_witness :
  (isTruthyCode (Text sourceT) = true /\
   parse fixtureEnv (mkParserOptions sourceModule [jsx]) (Text sourceT)
     = ParseFailed (mkError "SyntaxError"
                      "Unexpected token, expected a comma (1:18)")) /\
  parse fixtureEnv (mkParserOptions sourceModule [jsx; typescript])
        (Text sourceT) = Parsed astT /\
  detectReactComponent fixtureEnv (Text sourceT) "src/components/Typed.tsx"
                       emptyWorld =
    (Throw (mkError "SyntaxError" "Unexpected token, expected a comma (1:18)"),
     mkWorld [] [Text sourceT] []) /\
  verdict (detectFunction fixtureEnv [typedTsx] emptyWorld) = Return false.
Proof.
  split; [split; reflexivity |]. split; [reflexivity |]. split.
  - exact (detectReactComponent_parses_with_jsx_only fixtureEnv (Text sourceT)
             "src/components/Typed.tsx" _ emptyWorld eq_refl eq_refl).
  - reflexivity.
Defined.

(* ------------------------------------------------------------------ *)
(** ** Properties of the per-file step and of the loop *)

Section Orchestrator.

Variable env : Env.

Lemma detectReactComponentInFile_unconfigured (name : string) (w : World) :
  pullRequestHeadRef env = None ->
  detectReactComponentInFile env name w =
  (Throw (TypeError "Cannot read properties of undefined (reading 'head')"), w).
Proof.
  intro H. unfold detectReactComponentInFile. rewrite H. reflexivity.
Qed.

Lemma fileParses_truthy (branch name : string) (code : JsCode) :
  In code (fileParses env branch name) -> isTruthyCode code = true.
Proof.
  unfold fileParses.
  destruct (getContent env (requestFor env branch name)) as [[c | t | o] | e].
  - destruct (isTruthyCode (Text (nodeBase64ToUtf8 env (orEmpty c)))) eqn:T.
    + intros [<- | []]. exact T.
    + intros [].
  - intros [].
  - intros [<- | []]. reflexivity.
  - intros [].
Qed.

(** The per-file step, run: with a pull request in the payload it always
    returns; it sends the one request, hands the parser what [fileParses]
    says and writes to the console. *)
Lemma detectReactComponentInFile_shape (branch name : string) :
  pullRequestHeadRef env = Some branch ->
  exists result logs, forall w,
    detectReactComponentInFile env name w =
    (Return result,
     mkWorld (fetchCalls w ++ [requestFor env branch name])
             (parseCalls w ++ fileParses env branch name)
             (console w ++ logs)).
Proof.
  intro H. unfold detectReactComponentInFile. rewrite H.
  fold (requestFor env branch name). unfold fileParses.
  destruct (getContent env (requestFor env branch name))
    as [[c | t | o] | e] eqn:G.
  - destruct (detectReactComponent_shape env
                (Text (nodeBase64ToUtf8 env (orEmpty c))) name)
      as [r [logs Hrun]].
    destruct r as [result | error].
    + exists result, logs. intro w.
      unfold tryCatch, bind, awaitGetContent, logFetch, bind. simpl.
      rewrite G. simpl. rewrite Hrun. reflexivity.
    + exists None, (logs ++ [ConsoleError [unknownErrorMessage error]]).
      intro w.
      unfold tryCatch, bind, awaitGetContent, logFetch, bind. simpl.
      rewrite G. simpl. rewrite Hrun. simpl. rewrite app_assoc. reflexivity.
  - eexists None, _. intro w.
    unfold tryCatch, bind, awaitGetContent, logFetch, bind. simpl.
    rewrite G. simpl. rewrite app_nil_r. reflexivity.
  - destruct (detectReactComponent_shape env (NotText o) name)
      as [r [logs Hrun]].
    destruct r as [result | error].
    + exists result, logs. intro w.
      unfold tryCatch, bind, awaitGetContent, logFetch, bind. simpl.
      rewrite G. simpl. rewrite Hrun. reflexivity.
    + exists None, (logs ++ [ConsoleError [unknownErrorMessage error]]).
      intro w.
      unfold tryCatch, bind, awaitGetContent, logFetch, bind. simpl.
      rewrite G. simpl. rewrite Hrun. simpl. rewrite app_assoc. reflexivity.
  - eexists None, _. intro w.
    unfold tryCatch, bind, awaitGetContent, logFetch, bind. simpl.
    rewrite G. simpl. rewrite app_nil_r. reflexivity.
Qed.

Lemma detectReactComponentInFile_run (branch name : string) (w : World) :
  pullRequestHeadRef env = Some branch ->
  exists result logs,
    fileResult env name = Return result /\
    detectReactComponentInFile env name w =
    (Return result,
     mkWorld (fetchCalls w ++ [requestFor env branch name])
             (parseCalls w ++ fileParses env branch name)
             (console w ++ logs)).
Proof.
  intro H.
  destruct (detectReactComponentInFile_shape branch name H)
    as [result [logs Hrun]].
  exists result, logs. split; [| apply Hrun].
  unfold fileResult. rewrite Hrun. reflexivity.
Qed.

(** The result of the per-file step does not depend on what was logged
    before it. *)
Lemma detectReactComponentInFile_verdict (name : string) (w : World) :
  verdict (detectReactComponentInFile env name w) = fileResult env name.
Proof.
  destruct (pullRequestHeadRef env) as [branch |] eqn:R.
  - destruct (detectReactComponentInFile_run branch name w R)
      as [result [logs [Hres Hrun]]].
    rewrite Hrun, Hres. reflexivity.
  - unfold fileResult.
    rewrite !detectReactComponentInFile_unconfigured by exact R.
    reflexivity.
Qed.

Lemma detectLoop_unconfigured (file : ChangedFile) (rest : list ChangedFile)
  (w : World) :
  pullRequestHeadRef env = None ->
  detectLoop env (file :: rest) w =
  (Throw (TypeError "Cannot read properties of undefined (reading 'head')"), w).
Proof.
  intro H. simpl. unfold bind.
  rewrite detectReactComponentInFile_unconfigured by exact H. reflexivity.
Qed.

(** The loop, run: the disjunction of the per-file matches, and the
    requests and parses of the visited prefix. *)
Lemma detectLoop_run (branch : string) (files : list ChangedFile) (w : World) :
  pullRequestHeadRef env = Some branch ->
  exists w',
    detectLoop env files w =
      (Return (existsb (fun f => fileMatches env (filename f)) files), w') /\
    fetchCalls w' =
      fetchCalls w ++
      map (fun f => requestFor env branch (filename f)) (visited env files) /\
    parseCalls w' =
      parseCalls w ++
      flat_map (fun f => fileParses env branch (filename f))
               (visited env files).
Proof.
  intro H. revert w. induction files as [| file rest IH]; intro w.
  - exists w. simpl. rewrite !app_nil_r. repeat split; reflexivity.
  - destruct (detectReactComponentInFile_run branch (filename file) w H)
      as [result [logs [Hres Hrun]]].
    simpl. unfold bind. rewrite Hrun. unfold fileMatches. rewrite Hres.
    destruct (isTruthyResult result).
    + eexists. split; [reflexivity |]. simpl. rewrite app_nil_r.
      split; reflexivity.
    + destruct (IH (mkWorld (fetchCalls w ++ [requestFor env branch (filename file)])
                            (parseCalls w ++ fileParses env branch (filename file))
                            (console w ++ logs)))
        as [w' [Hloop [Hfetch Hparse]]].
      exists w'. split; [exact Hloop |]. simpl in Hfetch, Hparse |- *.
      rewrite Hfetch, Hparse, <- !app_assoc. split; reflexivity.
Qed.

Lemma visited_first_match
  (before : list ChangedFile) (file : ChangedFile) (after : list ChangedFile) :
  (forall f, In f before -> fileMatches env (filename f) = false) ->
  fileMatches env (filename file) = true ->
  visited env (before ++ file :: after) = before ++ [file].
Proof.
  intros Hbefore Hfile. induction before as [| g before IH]; simpl.
  - rewrite Hfile. reflexivity.
  - rewrite (Hbefore g (or_introl eq_refl)). f_equal. apply IH.
    intros f Hf. apply Hbefore. right. exact Hf.
Qed.

(** A loop that answers [true] ran with a pull request in the payload and
    met a matching file. *)
Lemma detectLoop_true_inv (files : list ChangedFile) (w : World) :
  verdict (detectLoop env files w) = Return true ->
  exists branch file,
    pullRequestHeadRef env = Some branch /\ In file files /\
    fileMatches env (filename file) = true.
Proof.
  intro H. destruct (pullRequestHeadRef env) as [branch |] eqn:R.
  - destruct (detectLoop_run branch files w R) as [w' [Hloop _]].
    rewrite Hloop in H. unfold verdict in H. simpl in H. injection H as H.
    apply existsb_exists in H. destruct H as [file [Hin Hv]].
    exists branch, file. repeat split; assumption.
  - destruct files as [| file rest].
    + discriminate H.
    + rewrite detectLoop_unconfigured in H by exact R. discriminate H.
Qed.

Lemma headRef_of_return (name : string) (w : World) (r : option bool) :
  verdict (detectReactComponentInFile env name w) = Return r ->
  exists branch, pullRequestHeadRef env = Some branch.
Proof.
  intro H. destruct (pullRequestHeadRef env) as [branch |] eqn:R.
  - exists branch. reflexivity.
  - rewrite detectReactComponentInFile_unconfigured in H by exact R.
    discriminate H.
Qed.

Lemma fileMatches_of_return (name : string) (w : World) (r : option bool) :
  verdict (detectReactComponentInFile env name w) = Return r ->
  fileMatches env name = isTruthyResult r.
Proof.
  intro H. rewrite detectReactComponentInFile_verdict in H.
  unfold fileMatches. rewrite H. reflexivity.
Qed.

End Orchestrator.

(** Idempotence: on a fixed snapshot the verdict of a detection run is the
    same from any starting log. *)
Lemma detectFunction_verdict_stable
  (env : Env) (changedFiles : list ChangedFile) (w1 w2 : World) :
  verdict (detectFunction env changedFiles w1) =
  verdict (detectFunction env changedFiles w2).
Proof.
  unfold detectFunction. destruct (pullRequestHeadRef env) as [branch |] eqn:R.
  - destruct (detectLoop_run env branch (filteredFiles changedFiles) w1 R)
      as [w1' [H1 _]].
    destruct (detectLoop_run env branch (filteredFiles changedFiles) w2 R)
      as [w2' [H2 _]].
    rewrite H1, H2. reflexivity.
  - destruct (filteredFiles changedFiles) as [| file rest].
    + reflexivity.
    + rewrite !detectLoop_unconfigured by exact R. reflexivity.
Qed.

(** A file whose classification throws is caught one level up, logged and
    answered with [undefined]. *)
Lemma detectReactComponentInFile_catches
  (env : Env) (branch name : string) (code : JsCode) (error : Error)
  (w : World) :
  pullRequestHeadRef env = Some branch ->
  fileParses env branch name = [code] ->
  (forall w0, detectReactComponent env code name w0 =
     (Throw error,
      mkWorld (fetchCalls w0) (parseCalls w0 ++ [code]) (console w0))) ->
  detectReactComponentInFile env name w =
    (Return None,
     mkWorld (fetchCalls w ++ [requestFor env branch name])
             (parseCalls w ++ [code])
             (console w ++ [ConsoleError [unknownErrorMessage error]])).
Proof.
  intros R Hsrc Hthrow. unfold detectReactComponentInFile. rewrite R.
  fold (requestFor env branch name). unfold fileParses in Hsrc.
  unfold tryCatch, bind, awaitGetContent, logFetch, bind. simpl.
  destruct (getContent env (requestFor env branch name))
    as [[c | t | o] | e]; try discriminate Hsrc.
  - destruct (isTruthyCode (Text (nodeBase64ToUtf8 env (orEmpty c))));
      [| discriminate Hsrc].
    injection Hsrc as Hsrc. simpl. rewrite Hsrc, Hthrow. reflexivity.
  - injection Hsrc as Hsrc. simpl. rewrite Hsrc, Hthrow. reflexivity.
Qed.





(** C10: [detectReactComponent] is not total on parseable sources.  When
    the tree starts with a named function declaration whose statement list
    starts with a return without argument (as in [function Foo() {
    return; }]), the callback of line 38 reads [type] of [null]: the
    classifier throws a [TypeError] and handles nothing itself; the
    handler around the fetch in the per-file step is what absorbs it. *)
Theorem bare_return_throws_TypeError
  (env : Env) (branch file : string) (code : JsCode)
  (name : string) (params : list string) (rest others : list Node)
  (w : World) :
  pullRequestHeadRef env = Some branch ->
  fileParses env branch file = [code] ->
  parse env babelOptions code =
    Parsed (FunctionDeclaration (Some name) params (ReturnStatement None :: rest)
            :: others) ->
  verdict (detectReactComponent env code file w) =
    Throw (TypeError "Cannot read properties of null (reading 'type')") /\
  detectReactComponentInFile env file w =
    (Return None,
     mkWorld (fetchCalls w ++ [requestFor env branch file])
             (parseCalls w ++ [code])
             (console w ++
              [ConsoleError
                 [unknownErrorMessage
                    (TypeError
                       "Cannot read properties of null (reading 'type')")]])).
Proof.
  intros R Hsrc Hparse.
  assert (Ht : isTruthyCode code = true).
  { apply (fileParses_truthy env branch file). rewrite Hsrc.
    left. reflexivity. }
  assert (Hthrow : forall w0, detectReactComponent env code file w0 =
    (Throw (TypeError "Cannot read properties of null (reading 'type')"),
     mkWorld (fetchCalls w0) (parseCalls w0 ++ [code]) (console w0))).
  { intro w0. unfold detectReactComponent, babelParse, bind, logParse.
    rewrite Ht. simpl. rewrite Hparse. reflexivity. }
  split.
  - rewrite Hthrow. reflexivity.
  - apply detectReactComponentInFile_catches; assumption.
Qed.

Lemma bare_return_throws_TypeError_witness :
  (pullRequestHeadRef fixtureEnv = Some "feature" /\
   fileParses fixtureEnv "feature" "src/Bare.js" = [Text sourceR] /\
   parse fixtureEnv babelOptions (Text sourceR) =
     Parsed [FunctionDeclaration (Some "Foo") [] [ReturnStatement None]]) /\
  verdict (detectReactComponent fixtureEnv (Text sourceR) "src/Bare.js"
             emptyWorld) =
    Throw (TypeError "Cannot read properties of null (reading 'type')") /\
  detectReactComponentInFile fixtureEnv "src/Bare.js" emptyWorld =
    (Return None,
     mkWorld [mkRequestParams "Expensify" "App" "src/Bare.js" "feature"]
             [Text sourceR]
             [ConsoleError
                ["An unknown error occurred with the GitHub API: TypeError: Cannot read properties of null (reading 'type'), while fetching [object Object]"]]).
Proof.
  split; [repeat split |].
  exact (bare_return_throws_TypeError fixtureEnv "feature" "src/Bare.js"
           (Text sourceR) "Foo" [] [] [] emptyWorld eq_refl eq_refl eq_refl).
Defined.

(** C5: when the filtered list is [before ++ file :: after], no file of
    [before] is classified [true] and [file] is, the detection run returns
    [true], and what it requested and parsed is what the files of
    [before ++ [file]] account for, in that order: nothing of [after] is
    fetched or parsed. *)
Theorem detectFunction_stops_at_first_match
  (env : Env) (changedFiles before after : list ChangedFile)
  (file : ChangedFile) (w : World) :
  filteredFiles changedFiles = before ++ file :: after ->
  (forall f w0, In f before ->
     verdict (detectReactComponentInFile env (filename f) w0)
       <> Return (Some true)) ->
  (forall w0,
     verdict (detectReactComponentInFile env (filename file) w0)
       = Return (Some true)) ->
  exists branch w',
    pullRequestHeadRef env = Some branch /\
    detectFunction env changedFiles w = (Return true, w') /\
    fetchCalls w' =
      fetchCalls w ++
      map (fun f => requestFor env branch (filename f)) (before ++ [file]) /\
    parseCalls w' =
      parseCalls w ++
      flat_map (fun f => fileParses env branch (filename f)) (before ++ [file]).
Proof.
  intros Hsplit Hbefore Hfile.
  destruct (headRef_of_return env _ _ _ (Hfile w)) as [branch R].
  assert (Vbefore : forall f, In f before ->
                      fileMatches env (filename f) = false).
  { intros f Hf.
    destruct (detectReactComponentInFile_run env branch (filename f) w R)
      as [result [logs [Hres Hrun]]].
    unfold fileMatches. rewrite Hres.
    destruct result as [[|] |]; try reflexivity.
    exfalso. apply (Hbefore f w Hf). rewrite Hrun. reflexivity. }
  assert (Vfile : fileMatches env (filename file) = true).
  { rewrite (fileMatches_of_return env _ w _ (Hfile w)). reflexivity. }
  destruct (detectLoop_run env branch (filteredFiles changedFiles) w R)
    as [w' [Hloop [Hfetch Hparse]]].
  exists branch, w'. split; [exact R |].
  rewrite Hsplit in Hloop, Hfetch, Hparse.
  rewrite (visited_first_match env before file after Vbefore Vfile)
    in Hfetch, Hparse.
  split; [| split; assumption].
  unfold detectFunction. rewrite Hsplit, Hloop. f_equal. f_equal.
  rewrite existsb_app. simpl. rewrite Vfile. simpl. apply orb_true_r.
Qed.

Lemma detectFunction_stops_at_first_match_witness :
  (filteredFiles [readmeMd; goneJs; fooTs; editedJs; bareJs; fooJs; arrowTsx;
                  nestedJs]
     = [goneJs; fooTs; bareJs] ++ fooJs :: [arrowTsx; nestedJs] /\
   (forall f w0, In f [goneJs; fooTs; bareJs] ->
      verdict (detectReactComponentInFile fixtureEnv (filename f) w0)
        <> Return (Some true)) /\
   (forall w0,
      verdict (detectReactComponentInFile fixtureEnv (filename fooJs) w0)
        = Return (Some true))) /\
  exists w',
    detectFunction fixtureEnv
      [readmeMd; goneJs; fooTs; editedJs; bareJs; fooJs; arrowTsx; nestedJs]
      emptyWorld
      = (Return true, w') /\
    map path (fetchCalls w') =
      ["src/Gone.js"; "src/libs/foo.ts"; "src/Bare.js";
       "src/components/Foo.js"] /\
    parseCalls w' = [Text sourceB; Text sourceR; Text sourceA].
Proof.
  assert (H1 : filteredFiles [readmeMd; goneJs; fooTs; editedJs; bareJs; fooJs;
                              arrowTsx; nestedJs]
               = [goneJs; fooTs; bareJs] ++ fooJs :: [arrowTsx; nestedJs])
    by reflexivity.
  assert (H2 : forall f w0, In f [goneJs; fooTs; bareJs] ->
            verdict (detectReactComponentInFile fixtureEnv (filename f) w0)
              <> Return (Some true)).
  { intros f w0 Hin. rewrite detectReactComponentInFile_verdict.
    destruct Hin as [<- | [<- | [<- | []]]]; discriminate. }
  assert (H3 : forall w0,
            verdict (detectReactComponentInFile fixtureEnv (filename fooJs) w0)
              = Return (Some true)).
  { intro w0. rewrite detectReactComponentInFile_verdict. reflexivity. }
  split; [repeat split; assumption |].
  destruct (detectFunction_stops_at_first_match fixtureEnv _ _ _ _ emptyWorld
              H1 H2 H3) as [branch [w' [R [Hrun [Hfetch Hparse]]]]].
  injection R as <-.
  exists w'. split; [exact Hrun |]. split.
  - rewrite Hfetch. reflexivity.
  - rewrite Hparse. reflexivity.
Defined.

(** C7: the verdict is monotone in the changed-file set: if detection
    answers [true] on [F], it answers [true] on every [F'] that contains the
    entries of [F], whatever the remote host answers for the other files. *)
Theorem detectFunction_monotone
  (env : Env) (F F' : list ChangedFile) (w w' : World) :
  incl F F' ->
  verdict (detectFunction env F w) = Return true ->
  verdict (detectFunction env F' w') = Return true.
Proof.
  intros Hincl Htrue. unfold detectFunction in *.
  apply detectLoop_true_inv in Htrue.
  destruct Htrue as [branch [file [R [Hin Hv]]]].
  destruct (detectLoop_run env branch (filteredFiles F') w' R)
    as [w'' [Hloop _]].
  rewrite Hloop. unfold verdict. simpl. f_equal. apply existsb_exists.
  exists file. split; [| exact Hv].
  apply (filteredFiles_incl F F' Hincl). exact Hin.
Qed.

Lemma detectFunction_monotone_witness :
  (incl [fooJs] [goneJs; brokenJsx; rawJs; bareJs; fooTs; fooJs; readmeMd] /\
   verdict (detectFunction fixtureEnv [fooJs] emptyWorld) = Return true) /\
  verdict (detectFunction fixtureEnv
             [goneJs; brokenJsx; rawJs; bareJs; fooTs; fooJs; readmeMd]
             emptyWorld) = Return true.
Proof.
  assert (H1 : incl [fooJs]
                 [goneJs; brokenJsx; rawJs; bareJs; fooTs; fooJs; readmeMd]).
  { intros f [<- | []]. simpl. tauto. }
  assert (H2 : verdict (detectFunction fixtureEnv [fooJs] emptyWorld)
               = Return true) by reflexivity.
  split; [split; assumption |].
  exact (detectFunction_monotone fixtureEnv _ _ emptyWorld emptyWorld H1 H2).
Defined.

(** C8: when no changed file is both added and of a recognised extension,
    the detection run returns [false] and leaves the world as it found it
    (no request is sent); and whenever the per-file step returns for every
    filtered file with a result other than [true], the run returns
    [false]. *)
Theorem detectFunction_false_without_match
  (env : Env) (changedFiles : list ChangedFile) (w : World) :
  ((forall f, In f changedFiles ->
      ~ (status f = "added" /\
         exists stem ext, In ext [".js"; ".jsx"; ".ts"; ".tsx"] /\
                          filename f = (stem ++ ext)%string)) ->
   detectFunction env changedFiles w = (Return false, w)) /\
  ((forall f w0, In f (filteredFiles changedFiles) ->
      exists result,
        verdict (detectReactComponentInFile env (filename f) w0)
          = Return result /\
        result <> Some true) ->
   verdict (detectFunction env changedFiles w) = Return false).
Proof.
  split.
  - intro Hnone. unfold detectFunction.
    rewrite filteredFiles_none; [reflexivity |].
    intros f Hf. destruct (filterFiles f) eqn:E; [| reflexivity].
    apply filterFiles_spec in E. exfalso. exact (Hnone f Hf E).
  - intro Hall. unfold detectFunction.
    destruct (filteredFiles changedFiles) as [| file rest] eqn:L.
    + reflexivity.
    + destruct (Hall file w (or_introl eq_refl)) as [r0 [Hr0 _]].
      destruct (headRef_of_return env _ _ _ Hr0) as [branch R].
      destruct (detectLoop_run env branch (file :: rest) w R)
        as [w' [Hloop _]].
      rewrite Hloop. unfold verdict. cbn [fst]. f_equal.
      apply not_true_is_false. intro E.
      apply existsb_exists in E. destruct E as [f [Hin Hv]].
      destruct (Hall f w Hin) as [result [Hres Hne]].
      rewrite (fileMatches_of_return env _ w _ Hres) in Hv.
      destruct result as [[|] |]; try discriminate Hv.
      apply Hne. reflexivity.
Qed.

Lemma detectFunction_false_without_match_witness :
  detectFunction fixtureEnv [mkChangedFile "a.py" "added"] emptyWorld
    = (Return false, emptyWorld) /\
  verdict (detectFunction fixtureEnv
             [fooTs; arrowTsx; brokenJsx; goneJs; emptyJs; rawJs]
             emptyWorld) = Return false.
Proof.
  destruct (detectFunction_false_without_match fixtureEnv
              [mkChangedFile "a.py" "added"] emptyWorld) as [Hnone _].
  destruct (detectFunction_false_without_match fixtureEnv
              [fooTs; arrowTsx; brokenJsx; goneJs; emptyJs; rawJs] emptyWorld)
    as [_ Hall].
  split.
  - apply Hnone. intros f [<- | []] H.
    apply filterFiles_spec in H. discriminate H.
  - apply Hall. intros f w0 Hin. simpl in Hin.
    rewrite detectReactComponentInFile_verdict.
    destruct Hin as [<- | [<- | [<- | [<- | [<- | [<- | []]]]]]];
      eexists; (split; [reflexivity | discriminate]).
Defined.

(* ------------------------------------------------------------------ *)
(** ** Further properties of the detection code *)

Lemma visitEach_flag_true (file : string) (l : list Node) (w : World) :
  visitEach (visitFunctionDeclaration file) l true w = (Return true, w).
Proof.
  induction l as [| node l IH]; simpl.
  - reflexivity.
  - unfold bind.
    assert (H : visitFunctionDeclaration file node true w = (Return true, w)).
    { destruct node; reflexivity. }
    rewrite H. exact IH.
Qed.




(** X11: a response whose [data] is a bare string never reaches the
    parser: the [in] test of line 61 throws a [TypeError], the handler
    logs it and the file counts as no match. *)
Theorem raw_text_response_is_not_parsed
  (env : Env) (branch name text : string) (w : World) :
  pullRequestHeadRef env = Some branch ->
  getContent env (requestFor env branch name) = Resolved (TextData text) ->
  detectReactComponentInFile env name w =
    (Return None,
     mkWorld (fetchCalls w ++ [requestFor env branch name])
             (parseCalls w)
             (console w ++
              [ConsoleError
                 [unknownErrorMessage
                    (TypeError
                       ("Cannot use 'in' operator to search for 'content' in "
                        ++ text))]])).
Proof.
  intros R G. unfold detectReactComponentInFile. rewrite R.
  fold (requestFor env branch name).
  unfold tryCatch, bind, awaitGetContent, logFetch, bind. simpl.
  rewrite G. reflexivity.
Qed.

Lemma raw_text_response_is_not_parsed_witness :
  (pullRequestHeadRef fixtureEnv = Some "feature" /\
   getContent fixtureEnv (requestFor fixtureEnv "feature" "src/Raw.js")
     = Resolved (TextData sourceA)) /\
  detectReactComponentInFile fixtureEnv "src/Raw.js" emptyWorld =
    (Return None,
     mkWorld [mkRequestParams "Expensify" "App" "src/Raw.js" "feature"] []
             [ConsoleError
                ["An unknown error occurred with the GitHub API: TypeError: Cannot use 'in' operator to search for 'content' in function Foo() { return <div/>; }, while fetching [object Object]"]]).
Proof.
  split; [split; reflexivity |].
  exact (raw_text_response_is_not_parsed fixtureEnv "feature" "src/Raw.js"
           sourceA emptyWorld eq_refl eq_refl).
Defined.

(** X12: without a pull request in the payload a detection run sends no
    request: it returns [false] when no file passes the filter, and
    otherwise it throws the [TypeError] of reading [head], which nothing
    catches. *)
Theorem missing_pull_request_aborts
  (env : Env) (changedFiles : list ChangedFile) (w : World) :
  pullRequestHeadRef env = None ->
  detectFunction env changedFiles w =
    (match filteredFiles changedFiles with
     | [] => Return false
     | _ :: _ =>
         Throw (TypeError
                  "Cannot read properties of undefined (reading 'head')")
     end, w).
Proof.
  intro R. unfold detectFunction.
  destruct (filteredFiles changedFiles) as [| file rest].
  - reflexivity.
  - apply detectLoop_unconfigured. exact R.
Qed.

Lemma missing_pull_request_aborts_witness :
  pullRequestHeadRef
    (mkEnv fixtureParse fixtureDecode fixtureRemote "Expensify" "App" None)
    = None /\
  detectFunction
    (mkEnv fixtureParse fixtureDecode fixtureRemote "Expensify" "App" None)
    [readmeMd; fooJs] emptyWorld =
    (Throw (TypeError "Cannot read properties of undefined (reading 'head')"),
     emptyWorld).
Proof.
  split; [reflexivity |].
  exact (missing_pull_request_aborts
           (mkEnv fixtureParse fixtureDecode fixtureRemote "Expensify" "App"
                  None)
           [readmeMd; fooJs] emptyWorld eq_refl).
Defined.

(** X13: the first component wins.  When the program starts with
    statements that hold a component and no return without argument in a
    named declaration, the answer is [true] whatever follows them, also a
    declaration on which the callback of line 38 would throw. *)
Theorem first_component_wins
  (env : Env) (code : JsCode) (file : string) (first later : list Node)
  (w : World) :
  isTruthyCode code = true ->
  parse env babelOptions code = Parsed (first ++ later) ->
  NoBareReturn first ->
  (exists top name params body tag children,
      In top first /\
      Within (FunctionDeclaration (Some name) params body) top /\
      In (ReturnStatement (Some (JSXElement tag children))) body) ->
  verdict (detectReactComponent env code file w) = Return (Some true).
Proof.
  intros Ht Hp Hbare Hcomp. apply component_within_spec in Hcomp.
  unfold detectReactComponent, babelParse, bind, logParse, verdict.
  rewrite Ht. simpl. rewrite Hp. unfold ret at 1.
  rewrite traverse_preorder, flat_map_app, visitEach_app.
  destruct (visitEach_shape file (flat_map preorder first) false)
    as [r [logs [Hrun Hres]]].
  rewrite (Hres (NoBareReturn_bareFree first Hbare)), Hcomp in Hrun.
  unfold bind. rewrite Hrun. simpl. rewrite visitEach_flag_true. reflexivity.
Qed.

Lemma first_component_wins_witness :
  (isTruthyCode (Text sourceAR) = true /\
   parse fixtureEnv babelOptions (Text sourceAR) = Parsed (astA ++ astR) /\
   NoBareReturn astA /\
   (exists top name params body tag children,
       In top astA /\
       Within (FunctionDeclaration (Some name) params body) top /\
       In (ReturnStatement (Some (JSXElement tag children))) body)) /\
  verdict (detectReactComponent fixtureEnv (Text sourceAR) "src/Two.js"
             emptyWorld) = Return (Some true).
Proof.
  assert (Hbare : NoBareReturn astA).
  { intros top name params body Htop Hw Hret.
    apply preorder_Within in Hw. destruct Htop as [<- | []]. simpl in Hw.
    repeat (destruct Hw as [E | Hw];
            [try discriminate E; injection E as _ _ <-; simpl in Hret;
             intuition discriminate |]).
    contradiction. }
  assert (Hcomp : exists top name params body tag children,
             In top astA /\
             Within (FunctionDeclaration (Some name) params body) top /\
             In (ReturnStatement (Some (JSXElement tag children))) body).
  { apply component_within_spec. reflexivity. }
  split; [repeat split; assumption |].
  exact (first_component_wins fixtureEnv (Text sourceAR) "src/Two.js"
           astA astR emptyWorld eq_refl eq_refl Hbare Hcomp).
Defined.

(** X14: the verdict is the disjunction over the filtered files: a
    detection run answers [true] exactly when some changed file passes the
    filter and its per-file step answers [true]. *)
Theorem detectFunction_true_iff
  (env : Env) (changedFiles : list ChangedFile) (w : World) :
  verdict (detectFunction env changedFiles w) = Return true <->
  exists f, In f changedFiles /\ filterFiles f = true /\
            verdict (detectReactComponentInFile env (filename f) emptyWorld)
              = Return (Some true).
Proof.
  unfold detectFunction. split.
  - intro H. apply detectLoop_true_inv in H.
    destruct H as [branch [file [R [Hin Hv]]]].
    apply filter_In in Hin. destruct Hin as [Hin Hkeep].
    exists file. split; [exact Hin |]. split; [exact Hkeep |].
    rewrite detectReactComponentInFile_verdict.
    unfold fileMatches in Hv.
    destruct (fileResult env (filename file)) as [[[|] |] | e];
      try discriminate Hv.
    reflexivity.
  - intros [f [Hin [Hkeep Hv]]].
    destruct (headRef_of_return env _ _ _ Hv) as [branch R].
    destruct (detectLoop_run env branch (filteredFiles changedFiles) w R)
      as [w' [Hloop _]].
    rewrite Hloop. unfold verdict. simpl. f_equal. apply existsb_exists.
    exists f. split.
    + apply filter_In. split; assumption.
    + rewrite (fileMatches_of_return env _ emptyWorld _ Hv). reflexivity.
Qed.


(* ------------------------------------------------------------------ *)
(** ** Properties of the avatar component *)

Module AvatarProperties.
Import Avatar.

Lemma isTruthySource_spec (s : option AvatarSource) :
  isTruthySource s = false <-> s = None \/ s = Some (Url "").
Proof.
  split.
  - destruct s as [[id | [| c u]] |]; simpl; intro H;
      try discriminate H; auto.
  - intros [-> | ->]; reflexivity.
Qed.

Lemma isTruthySource_cases (s : AvatarSource) :
  isTruthySource (Some s) = true ->
  (exists id, s = SvgComponent id) \/ (exists u, s = Url u /\ u <> "").
Proof.
  destruct s as [id | [| c u]]; simpl; intro H.
  - left. exists id. reflexivity.
  - discriminate H.
  - right. exists (String c u). split; [reflexivity | discriminate].
Qed.

(** The tree the component builds around a leaf, once the source is known
    to be truthy. *)
Lemma Avatar_truthy (h : Hooks) (p : AvatarProps) (e : bool) (s : AvatarSource) :
  source p = Some s ->
  isTruthySource (Some s) = true ->
  exists rootStyle innerStyle leaf,
    Avatar h p e = Some (View rootStyle [View innerStyle [leaf]]) /\
    let shown := if e then fallbackAvatarOf h p else s in
    (isFunction shown = true ->
       exists fillColor styles,
         leaf = Icon shown
                  (getAvatarSize h (nullish (size p) (AVATAR_SIZE_DEFAULT h)))
                  (getAvatarSize h (nullish (size p) (AVATAR_SIZE_DEFAULT h)))
                  fillColor styles) /\
    (isFunction shown = false ->
       exists style, leaf = Image shown style (SetImageError true)).
Proof.
  intros Hs Ht. unfold Avatar. rewrite Hs, Ht. cbv zeta. simpl negb.
  cbv iota.
  destruct (isFunction (if e then fallbackAvatarOf h p else s)) eqn:F;
    do 3 eexists; (split; [reflexivity |]);
    split; intro H; try discriminate H; eexists; try eexists; reflexivity.
Qed.

Lemma Avatar_none_iff (h : Hooks) (p : AvatarProps) (e : bool) :
  Avatar h p e = None <-> isTruthySource (source p) = false.
Proof.
  unfold Avatar. destruct (isTruthySource (source p)) eqn:T; simpl.
  - destruct (source p) as [s |]; [| discriminate T].
    split; discriminate.
  - split; reflexivity.
Qed.

(** X1: the component renders nothing exactly when the source is missing
    or is the empty string; the error state and the other props play no
    part. *)
Theorem Avatar_null_iff (h : Hooks) (p : AvatarProps) (e : bool) :
  Avatar h p e = None <-> source p = None \/ source p = Some (Url "").
Proof.
  rewrite <- isTruthySource_spec, <- Avatar_none_iff. reflexivity.
Qed.

(** X2: whatever is rendered is a [View] holding one [View] holding one
    leaf, and the leaf is either a square [Icon] whose [src] is a component
    or an [Image] whose [uri] is a string and whose [onError] sets the
    error state: a URL never reaches [Icon], a component never reaches
    [Image]. *)
Theorem Avatar_leaf_matches_source_kind
  (h : Hooks) (p : AvatarProps) (e : bool) (tree : Element) :
  Avatar h p e = Some tree ->
  exists rootStyle innerStyle leaf,
    tree = View rootStyle [View innerStyle [leaf]] /\
    ((exists id side fillColor styles,
        leaf = Icon (SvgComponent id) side side fillColor styles) \/
     (exists uri style, leaf = Image (Url uri) style (SetImageError true))).
Proof.
  intro H.
  destruct (source p) as [s |] eqn:Hs.
  2:{ assert (N : Avatar h p e = None).
      { apply Avatar_none_iff. rewrite Hs. reflexivity. }
      rewrite N in H. discriminate H. }
  destruct (isTruthySource (Some s)) eqn:Ht.
  2:{ assert (N : Avatar h p e = None).
      { apply Avatar_none_iff. rewrite Hs. exact Ht. }
      rewrite N in H. discriminate H. }
  destruct (Avatar_truthy h p e s Hs Ht)
    as [rootStyle [innerStyle [leaf [Hrun [Hicon Himage]]]]].
  rewrite Hrun in H. injection H as <-.
  exists rootStyle, innerStyle, leaf. split; [reflexivity |].
  simpl in Hicon, Himage.
  destruct (if e then fallbackAvatarOf h p else s) as [id | uri] eqn:Shown.
  - left. destruct (Hicon eq_refl) as [fillColor [styles ->]].
    exists id. do 3 eexists. reflexivity.
  - right. destruct (Himage eq_refl) as [style ->].
    exists uri, style. reflexivity.
Qed.

Lemma Avatar_leaf_matches_source_kind_witness :
  Avatar sampleHooks userProps false =
    Some (View (StyleArray [StyleUndefined;
                            StyleObject [("pointerEvents", "none")]])
            [View (StyleArray [StyleUndefined;
                               StyleObject [("borderFor", "default")];
                               StyleUndefined])
               [Image (Url "https://example.com/a.png")
                      (StyleArray [StyleObject [("avatarSize", "default")];
                                   StyleUndefined;
                                   StyleObject [("borderRadius", "0")]])
                      (SetImageError true)]]) /\
  exists rootStyle innerStyle leaf,
    View (StyleArray [StyleUndefined; StyleObject [("pointerEvents", "none")]])
      [View (StyleArray [StyleUndefined;
                         StyleObject [("borderFor", "default")];
                         StyleUndefined])
         [Image (Url "https://example.com/a.png")
                (StyleArray [StyleObject [("avatarSize", "default")];
                             StyleUndefined;
                             StyleObject [("borderRadius", "0")]])
                (SetImageError true)]]
    = View rootStyle [View innerStyle [leaf]] /\
    ((exists id side fillColor styles,
        leaf = Icon (SvgComponent id) side side fillColor styles) \/
     (exists uri style, leaf = Image (Url uri) style (SetImageError true))).
Proof.
  split; [reflexivity |].
  exact (Avatar_leaf_matches_source_kind sampleHooks userProps false _ eq_refl).
Defined.

Lemma isTruthySource_nonempty (s : AvatarSource) :
  s <> Url "" -> isTruthySource (Some s) = true.
Proof.
  intro Hne. destruct (isTruthySource (Some s)) eqn:T; [reflexivity |].
  apply isTruthySource_spec in T. destruct T as [T | T].
  - discriminate T.
  - injection T as ->. contradiction.
Qed.

Lemma fallbackAvatarOf_cases (h : Hooks) (p : AvatarProps) :
  fallbackAvatarOf h p =
    match type p with
    | Some ICON_TYPE_WORKSPACE =>
        getDefaultWorkspaceAvatar h (nullish (name p) "")
    | _ => match fallbackIcon p with
           | Some icon => icon
           | None => illustrations_FallbackAvatar h
           end
    end.
Proof.
  unfold fallbackAvatarOf. destruct (type p) as [[|] |]; reflexivity.
Qed.

(** What is on screen: the source, or the fallback after a load error. *)
Lemma shownSources_Avatar (h : Hooks) (p : AvatarProps) (e : bool)
  (s : AvatarSource) :
  source p = Some s ->
  s <> Url "" ->
  option_map shownSources (Avatar h p e) =
    Some [if e then fallbackAvatarOf h p else s].
Proof.
  intros Hs Hne.
  destruct (Avatar_truthy h p e s Hs (isTruthySource_nonempty s Hne))
    as [rootStyle [innerStyle [leaf [Hrun [Hicon Himage]]]]].
  rewrite Hrun. simpl in Hicon, Himage |- *.
  destruct (isFunction (if e then fallbackAvatarOf h p else s)).
  - destruct (Hicon eq_refl) as [fillColor [styles ->]]. reflexivity.
  - destruct (Himage eq_refl) as [style ->]. reflexivity.
Qed.

(** X3: with a truthy source and no load error, the one source on screen is
    the [source] prop. *)
Theorem Avatar_shows_source (h : Hooks) (p : AvatarProps) (s : AvatarSource) :
  source p = Some s ->
  s <> Url "" ->
  option_map shownSources (Avatar h p false) = Some [s].
Proof.
  intros Hs Hne. exact (shownSources_Avatar h p false s Hs Hne).
Qed.

Lemma Avatar_shows_source_witness :
  (source workspaceProps = Some (SvgComponent "Building") /\
   SvgComponent "Building" <> Url "") /\
  option_map shownSources (Avatar sampleHooks workspaceProps false)
    = Some [SvgComponent "Building"].
Proof.
  assert (H1 : source workspaceProps = Some (SvgComponent "Building"))
    by reflexivity.
  assert (H2 : SvgComponent "Building" <> Url "") by discriminate.
  split; [split; assumption |].
  exact (Avatar_shows_source sampleHooks workspaceProps _ H1 H2).
Defined.

(** X4: after a load error, a workspace avatar shows the default workspace
    avatar of its name (of the empty name when none is given), and any
    other avatar shows the [fallbackIcon] prop when there is one and the
    fallback illustration otherwise; for a workspace the [fallbackIcon]
    prop is not looked at. *)
Theorem Avatar_shows_fallback_after_error
  (h : Hooks) (p : AvatarProps) (s : AvatarSource) :
  source p = Some s ->
  s <> Url "" ->
  option_map shownSources (Avatar h p true) =
    Some [match type p with
          | Some ICON_TYPE_WORKSPACE =>
              getDefaultWorkspaceAvatar h (nullish (name p) "")
          | _ =>
              match fallbackIcon p with
              | Some icon => icon
              | None => illustrations_FallbackAvatar h
              end
          end].
Proof.
  intros Hs Hne. rewrite <- fallbackAvatarOf_cases.
  exact (shownSources_Avatar h p true s Hs Hne).
Qed.

Lemma Avatar_shows_fallback_after_error_witness :
  (source workspaceProps = Some (SvgComponent "Building") /\
   SvgComponent "Building" <> Url "") /\
  option_map shownSources (Avatar sampleHooks workspaceProps true)
    = Some [SvgComponent "Workspace-Acme"] /\
  option_map shownSources (Avatar sampleHooks userProps true)
    = Some [SvgComponent "FallbackAvatar"].
Proof.
  assert (H1 : source workspaceProps = Some (SvgComponent "Building"))
    by reflexivity.
  assert (H2 : SvgComponent "Building" <> Url "") by discriminate.
  split; [split; assumption |]. split.
  - exact (Avatar_shows_fallback_after_error sampleHooks workspaceProps _ H1 H2).
  - assert (H3 : Url "https://example.com/a.png" <> Url "") by discriminate.
    exact (Avatar_shows_fallback_after_error sampleHooks userProps _ eq_refl H3).
Defined.

(** X5: the [fill] prop reaches the screen in one situation only: it is
    ignored for a workspace avatar, after a load error, and whenever the
    source is a URL. *)
Theorem Avatar_fill_ignored
  (h : Hooks) (p : AvatarProps) (e : bool) (value : option string) :
  type p = Some ICON_TYPE_WORKSPACE \/ e = true \/
  (exists u, source p = Some (Url u)) ->
  Avatar h (withFill p value) e = Avatar h p e.
Proof.
  intros [H | [H | [u H]]]; unfold Avatar, fallbackAvatarOf, withFill; simpl.
  - rewrite H. reflexivity.
  - subst e. reflexivity.
  - rewrite H. destruct e; reflexivity.
Qed.

Lemma Avatar_fill_ignored_witness :
  (type workspaceProps = Some ICON_TYPE_WORKSPACE \/ false = true \/
   (exists u, source workspaceProps = Some (Url u))) /\
  Avatar sampleHooks (withFill workspaceProps (Some "blue")) false
    = Avatar sampleHooks workspaceProps false.
Proof.
  assert (H : type workspaceProps = Some ICON_TYPE_WORKSPACE \/ false = true \/
              (exists u, source workspaceProps = Some (Url u)))
    by (left; reflexivity).
  split; [exact H |].
  exact (Avatar_fill_ignored sampleHooks workspaceProps false (Some "blue") H).
Defined.

(** X6: the [fallbackIcon] prop is ignored as long as no load error
    occurred, and for a workspace avatar always. *)
Theorem Avatar_fallbackIcon_ignored
  (h : Hooks) (p : AvatarProps) (e : bool) (value : option AvatarSource) :
  e = false \/ type p = Some ICON_TYPE_WORKSPACE ->
  Avatar h (withFallbackIcon p value) e = Avatar h p e.
Proof.
  intros [H | H]; unfold Avatar, fallbackAvatarOf, withFallbackIcon; simpl.
  - subst e. reflexivity.
  - rewrite H. reflexivity.
Qed.

Lemma Avatar_fallbackIcon_ignored_witness :
  (true = false \/ type workspaceProps = Some ICON_TYPE_WORKSPACE) /\
  Avatar sampleHooks (withFallbackIcon workspaceProps None) true
    = Avatar sampleHooks workspaceProps true.
Proof.
  assert (H : true = false \/ type workspaceProps = Some ICON_TYPE_WORKSPACE)
    by (right; reflexivity).
  split; [exact H |].
  exact (Avatar_fallbackIcon_ignored sampleHooks workspaceProps true None H).
Defined.

(** X7: whenever an icon is rendered, its fill is the theme's offline
    colour after a load error; otherwise, for a workspace, the [fill]
    property of the default workspace colour of the name, and for any other
    avatar the [fill] prop, or the theme's icon colour when the prop is
    absent.  Its third additional style is the fallback background after a
    load error and [false] otherwise. *)
Theorem Avatar_icon_fill
  (h : Hooks) (p : AvatarProps) (e : bool)
  (rootStyle innerStyle s1 s2 s3 s4 : StyleProp)
  (src : AvatarSource) (height width : nat) (fillColor : option string) :
  Avatar h p e =
    Some (View rootStyle
            [View innerStyle
               [Icon src height width fillColor
                     (StyleArray [s1; s2; s3; s4])]]) ->
  fillColor =
    (if e then Some (theme_offline h)
     else match type p with
          | Some ICON_TYPE_WORKSPACE =>
              getProperty "fill"
                (getDefaultWorkspaceAvatarColor h (nullish (name p) ""))
          | _ => Some (match fill p with
                       | Some color => color
                       | None => theme_icon h
                       end)
          end) /\
  s3 = (if e
        then StyleObject (getBackgroundColorStyle h (theme_fallbackIconColor h))
        else StyleFalse).
Proof.
  unfold Avatar.
  destruct (isTruthySource (source p)); simpl negb; cbv iota;
    [| discriminate].
  destruct (source p) as [s |]; [| discriminate].
  cbv zeta.
  destruct (isFunction (if e then fallbackAvatarOf h p else s));
    [| discriminate].
  intro H. injection H as _ _ _ _ _ Hfill _ _ H3 _.
  subst fillColor s3. unfold andStyle.
  destruct e; [split; reflexivity |].
  destruct (type p) as [[|] |], (fill p); split; reflexivity.
Qed.

Lemma Avatar_icon_fill_witness :
  Avatar sampleHooks workspaceProps false =
    Some (View (StyleArray [StyleUndefined;
                            StyleObject [("pointerEvents", "none")]])
            [View StyleUndefined
               [Icon (SvgComponent "Building") 80 80 (Some "#FFD7B0")
                     (StyleArray
                        [StyleObject [("borderFor", "large")];
                         StyleObject [("backgroundColor", "#F25730");
                                      ("fill", "#FFD7B0")];
                         StyleFalse;
                         StyleUndefined])]]) /\
  Some "#FFD7B0" =
    getProperty "fill" (getDefaultWorkspaceAvatarColor sampleHooks "Acme") /\
  StyleFalse = StyleFalse.
Proof.
  split; [reflexivity |].
  exact (Avatar_icon_fill sampleHooks workspaceProps false _ _ _ _ _ _ _ _ _ _
           eq_refl).
Defined.

Lemma AvatarSource_eqb_eq (a b : AvatarSource) :
  AvatarSource_eqb a b = true <-> a = b.
Proof.
  destruct a as [x | x], b as [y | y]; simpl;
    try (split; intro H; discriminate H);
    rewrite String.eqb_eq; split; intro H;
    try (subst; reflexivity); injection H as H; exact H.
Qed.

Lemma sameSource_eq (a b : option AvatarSource) :
  sameSource a b = true <-> a = b.
Proof.
  destruct a as [x |], b as [y |]; simpl;
    try (split; intro H; (discriminate H || reflexivity)).
  rewrite AvatarSource_eqb_eq. split; intro H.
  - subst. reflexivity.
  - injection H as H. exact H.
Qed.

(** The handlers of a rendered tree: one [SetImageError true] when an image
    is shown, none when an icon is. *)
Lemma onErrorHandlers_Avatar (h : Hooks) (p : AvatarProps) (e : bool)
  (s : AvatarSource) :
  source p = Some s ->
  isTruthySource (Some s) = true ->
  option_map onErrorHandlers (Avatar h p e) =
    Some (if isFunction (if e then fallbackAvatarOf h p else s)
          then [] else [SetImageError true]).
Proof.
  intros Hs Ht.
  destruct (Avatar_truthy h p e s Hs Ht)
    as [rootStyle [innerStyle [leaf [Hrun [Hicon Himage]]]]].
  rewrite Hrun. simpl in Hicon, Himage |- *.
  destruct (isFunction (if e then fallbackAvatarOf h p else s)).
  - destruct (Hicon eq_refl) as [fillColor [styles ->]]. reflexivity.
  - destruct (Himage eq_refl) as [style ->]. reflexivity.
Qed.

(** What a failed load does to an instance. *)
Lemma imageFailed_run (h : Hooks) (i : Instance) :
  imageFailed h i =
    match source (props i) with
    | Some s =>
        if isTruthySource (Some s) &&
           negb (isFunction (if imageError i then fallbackAvatarOf h (props i)
                             else s))
        then mkInstance (props i) true (lastEffect i)
        else i
    | None => i
    end.
Proof.
  unfold imageFailed, render.
  destruct (source (props i)) as [s |] eqn:Hs.
  - destruct (isTruthySource (Some s)) eqn:Ht.
    + pose proof (onErrorHandlers_Avatar h (props i) (imageError i) s Hs Ht)
        as Hh.
      destruct (Avatar h (props i) (imageError i)) as [tree |];
        [| discriminate Hh].
      simpl in Hh. injection Hh as Hh. rewrite Hh. simpl.
      destruct (isFunction _); reflexivity.
    + assert (N : Avatar h (props i) (imageError i) = None).
      { apply Avatar_none_iff. rewrite Hs. exact Ht. }
      rewrite N. reflexivity.
  - assert (N : Avatar h (props i) (imageError i) = None).
    { apply Avatar_none_iff. rewrite Hs. reflexivity. }
    rewrite N. reflexivity.
Qed.

Lemma effectPending_false (i : Instance) :
  effectPending i = false <-> lastEffect i = Some (source (props i)).
Proof.
  unfold effectPending. destruct (lastEffect i) as [previous |].
  - rewrite negb_false_iff, sameSource_eq. split.
    + intros ->. reflexivity.
    + intro H. injection H as H. exact H.
  - split; discriminate.
Qed.

Lemma runEffects_settled (i : Instance) :
  effectPending (runEffects i) = false.
Proof.
  unfold runEffects. destruct (effectPending i) eqn:P.
  - apply effectPending_false. reflexivity.
  - exact P.
Qed.

(** Every event keeps the error state to non-empty URLs. *)
Lemma step_errorOnlyForUrl (h : Hooks) (i : Instance) (ev : Event) :
  errorOnlyForUrl i -> errorOnlyForUrl (step h i ev).
Proof.
  unfold errorOnlyForUrl. intros Hi Herr.
  destruct ev as [| | p' |]; simpl in Herr |- *.
  - rewrite imageFailed_run in Herr |- *.
    destruct (source (props i)) as [s |] eqn:Hs; [| rewrite Hs; auto].
    destruct (isTruthySource (Some s)) eqn:Ht; simpl in Herr |- *.
    + destruct (imageError i) eqn:E.
      * destruct (negb _); simpl; rewrite Hs; apply Hi; reflexivity.
      * destruct (isFunction s) eqn:F; simpl in Herr |- *.
        -- rewrite E in Herr. discriminate Herr.
        -- left.
           destruct (isTruthySource_cases s Ht) as [[id ->] | [u [-> Hu]]].
           ++ discriminate F.
           ++ exists u. split; [exact Hu | exact Hs].
    + rewrite Hs. apply Hi. exact Herr.
  - discriminate Herr.
  - unfold setProps in Herr |- *. simpl in Herr |- *.
    unfold runEffects in Herr |- *.
    destruct (effectPending i) eqn:P; simpl in Herr |- *.
    + discriminate Herr.
    + right. apply effectPending_false in P.
      destruct (Hi Herr) as [[u [Hu Hs]] | [u [Hu Hl]]].
      * exists u. split; [exact Hu |]. rewrite P, Hs. reflexivity.
      * exists u. split; assumption.
  - unfold runEffects in Herr |- *.
    destruct (effectPending i) eqn:P; simpl in Herr |- *.
    + discriminate Herr.
    + apply Hi. exact Herr.
Qed.

Lemma run_errorOnlyForUrl (h : Hooks) (events : list Event) (i : Instance) :
  errorOnlyForUrl i -> errorOnlyForUrl (run h i events).
Proof.
  unfold run. revert i. induction events as [| ev events IH]; intros i Hi.
  - exact Hi.
  - simpl. apply IH. apply step_errorOnlyForUrl. exact Hi.
Qed.

Lemma run_app (h : Hooks) (i : Instance) (a b : list Event) :
  run h i (a ++ b) = run h (run h i a) b.
Proof. unfold run. apply fold_left_app. Qed.

(** X8: starting from the first render, after any sequence of failed
    loads, reconnects, prop changes and effect runs, the error state is on
    only if the current source is a non-empty URL, or the effect for the
    current source has not run yet and the source it last ran for was a
    non-empty URL. *)
Theorem error_state_only_for_urls
  (h : Hooks) (p : AvatarProps) (events : list Event) :
  imageError (run h (mount p) events) = true ->
  (exists u, u <> "" /\
     source (props (run h (mount p) events)) = Some (Url u)) \/
  (effectPending (run h (mount p) events) = true /\
   exists u, u <> "" /\
     lastEffect (run h (mount p) events) = Some (Some (Url u))).
Proof.
  intro Herr.
  assert (Hinit : errorOnlyForUrl (mount p)) by (intro E; discriminate E).
  destruct (run_errorOnlyForUrl h events (mount p) Hinit Herr)
    as [Hcur | [u [Hu Hl]]]; [left; exact Hcur |].
  destruct (effectPending (run h (mount p) events)) eqn:P.
  - right. split; [reflexivity |]. exists u. split; assumption.
  - left. apply effectPending_false in P. rewrite P in Hl.
    injection Hl as Hl. exists u. split; assumption.
Qed.

Lemma error_state_only_for_urls_witness :
  imageError (run sampleHooks (mount userProps)
                [EffectsRun; ImageLoadFailed;
                 PropsChanged (withSource userProps
                                 (Some (SvgComponent "Building")))]) = true /\
  ((exists u, u <> "" /\
      source (props (run sampleHooks (mount userProps)
                       [EffectsRun; ImageLoadFailed;
                        PropsChanged (withSource userProps
                                        (Some (SvgComponent "Building")))]))
        = Some (Url u)) \/
   (effectPending (run sampleHooks (mount userProps)
                     [EffectsRun; ImageLoadFailed;
                      PropsChanged (withSource userProps
                                      (Some (SvgComponent "Building")))])
      = true /\
    exists u, u <> "" /\
      lastEffect (run sampleHooks (mount userProps)
                    [EffectsRun; ImageLoadFailed;
                     PropsChanged (withSource userProps
                                     (Some (SvgComponent "Building")))])
        = Some (Some (Url u)))).
Proof.
  split; [reflexivity |].
  exact (error_state_only_for_urls sampleHooks userProps
           [EffectsRun; ImageLoadFailed;
            PropsChanged (withSource userProps
                            (Some (SvgComponent "Building")))] eq_refl).
Defined.

(** X9: once the effects of the last render have run, an avatar whose
    current source is an icon component shows exactly that icon, whatever
    failed loads, reconnects and prop changes came before.  (The render
    before that can still show a fallback: see the next property.) *)
Theorem component_source_shown_after_effects
  (h : Hooks) (p : AvatarProps) (events : list Event) (id : string) :
  source (props (run h (mount p) events)) = Some (SvgComponent id) ->
  option_map shownSources
    (render h (run h (mount p) (events ++ [EffectsRun])))
    = Some [SvgComponent id].
Proof.
  intro Hs. rewrite run_app. unfold run at 1. simpl.
  set (i := run h (mount p) events) in *.
  assert (Hinv : errorOnlyForUrl (runEffects i)).
  { apply (step_errorOnlyForUrl h i EffectsRun).
    apply run_errorOnlyForUrl. intro E. discriminate E. }
  assert (Hprops : props (runEffects i) = props i).
  { unfold runEffects. destruct (effectPending i); reflexivity. }
  unfold render. rewrite Hprops.
  destruct (imageError (runEffects i)) eqn:E.
  - exfalso. destruct (Hinv E) as [[u [_ Hu]] | [u [_ Hl]]].
    + rewrite Hprops, Hs in Hu. discriminate Hu.
    + pose proof (runEffects_settled i) as P.
      apply effectPending_false in P. rewrite P, Hprops, Hs in Hl.
      discriminate Hl.
  - apply (shownSources_Avatar h _ false (SvgComponent id) Hs). discriminate.
Qed.

Lemma component_source_shown_after_effects_witness :
  source (props (run sampleHooks (mount userProps)
                   [EffectsRun; ImageLoadFailed;
                    PropsChanged (withSource userProps
                                    (Some (SvgComponent "Building")))]))
    = Some (SvgComponent "Building") /\
  option_map shownSources
    (render sampleHooks
       (run sampleHooks (mount userProps)
          ([EffectsRun; ImageLoadFailed;
            PropsChanged (withSource userProps (Some (SvgComponent "Building")))]
           ++ [EffectsRun])))
    = Some [SvgComponent "Building"].
Proof.
  split; [reflexivity |].
  exact (component_source_shown_after_effects sampleHooks userProps
           [EffectsRun; ImageLoadFailed;
            PropsChanged (withSource userProps (Some (SvgComponent "Building")))]
           "Building" eq_refl).
Defined.

(** X10: for an avatar with a non-empty URL whose first effect has run, a
    failed load makes the component show the fallback; a reconnect brings
    back what was rendered at mount; new props with another source are
    first rendered still in the error state and, once their effect has
    run, without it; new props that keep the source stay in the error
    state. *)
Theorem broken_url_falls_back_until_reset
  (h : Hooks) (p : AvatarProps) (u : string) :
  source p = Some (Url u) ->
  u <> "" ->
  option_map shownSources
    (render h (run h (mount p) [EffectsRun; ImageLoadFailed]))
    = Some [fallbackAvatarOf h p] /\
  render h (run h (mount p) [EffectsRun; ImageLoadFailed; Reconnected])
    = render h (mount p) /\
  (forall p', source p' <> source p ->
     render h (run h (mount p) [EffectsRun; ImageLoadFailed; PropsChanged p'])
       = Avatar h p' true /\
     render h (run h (mount p)
                 [EffectsRun; ImageLoadFailed; PropsChanged p'; EffectsRun])
       = Avatar h p' false) /\
  (forall p', source p' = source p ->
     render h (run h (mount p)
                 [EffectsRun; ImageLoadFailed; PropsChanged p'; EffectsRun])
       = Avatar h p' true).
Proof.
  intros Hs Hu.
  assert (Hne : Url u <> Url "").
  { intro E. injection E as E. contradiction. }
  assert (Hfail : imageFailed h (mkInstance p false (Some (source p)))
                  = mkInstance p true (Some (source p))).
  { rewrite imageFailed_run. cbn [props imageError lastEffect].
    rewrite Hs. cbv beta iota.
    rewrite (isTruthySource_nonempty _ Hne). reflexivity. }
  assert (Hsame : sameSource (source p) (source p) = true)
    by (apply sameSource_eq; reflexivity).
  assert (H1 : runEffects (mount p) = mkInstance p false (Some (source p)))
    by reflexivity.
  assert (H3 : forall p',
             setProps p' (mkInstance p true (Some (source p)))
             = mkInstance p' true (Some (source p))).
  { intro p'. unfold setProps, runEffects, effectPending.
    cbn [lastEffect props]. rewrite Hsame. reflexivity. }
  assert (H4 : forall p',
             runEffects (mkInstance p' true (Some (source p)))
             = if sameSource (source p) (source p')
               then mkInstance p' true (Some (source p))
               else mkInstance p' false (Some (source p'))).
  { intro p'. unfold runEffects, effectPending. cbn [lastEffect props].
    destruct (sameSource (source p) (source p')); reflexivity. }
  unfold run. cbn [fold_left step]. rewrite H1, Hfail.
  split; [exact (shownSources_Avatar h p true (Url u) Hs Hne) |].
  split; [reflexivity |]. split; intros p' Hp'; rewrite H3.
  - split; [reflexivity |]. rewrite H4.
    destruct (sameSource (source p) (source p')) eqn:S; [| reflexivity].
    apply sameSource_eq in S. exfalso. apply Hp'. symmetry. exact S.
  - rewrite H4.
    assert (S : sameSource (source p) (source p') = true).
    { apply sameSource_eq. symmetry. exact Hp'. }
    rewrite S. reflexivity.
Qed.

Lemma broken_url_falls_back_until_reset_witness :
  (source userProps = Some (Url "https://example.com/a.png") /\
   "https://example.com/a.png" <> "") /\
  option_map shownSources
    (render sampleHooks
       (run sampleHooks (mount userProps) [EffectsRun; ImageLoadFailed]))
    = Some [SvgComponent "FallbackAvatar"] /\
  option_map shownSources
    (render sampleHooks
       (run sampleHooks (mount userProps)
          [EffectsRun; ImageLoadFailed; PropsChanged workspaceProps]))
    = Some [SvgComponent "Workspace-Acme"] /\
  option_map shownSources
    (render sampleHooks
       (run sampleHooks (mount userProps)
          [EffectsRun; ImageLoadFailed; PropsChanged workspaceProps;
           EffectsRun]))
    = Some [SvgComponent "Building"].
Proof.
  assert (H1 : source userProps = Some (Url "https://example.com/a.png"))
    by reflexivity.
  assert (H2 : "https://example.com/a.png" <> "") by discriminate.
  split; [split; assumption |].
  destruct (broken_url_falls_back_until_reset sampleHooks userProps _ H1 H2)
    as [Hshow [_ [Hother _]]].
  split; [exact Hshow |].
  assert (H3 : source workspaceProps <> source userProps) by discriminate.
  destruct (Hother workspaceProps H3) as [Hfirst Hlater].
  split.
  - rewrite Hfirst. reflexivity.
  - rewrite Hlater. reflexivity.
Defined.

End AvatarProperties.
